(** * Plannr: the material-release allocation engine

    A shallow embedding of [process_single_scenario] and of the strategy
    search of [load_and_process_database], as they are written in
    [AMCBDG_SQL.py] and duplicated in [AMCBDG_SQL_Qt6.py].

    Conventions of the embedding.
    - Python dictionaries keyed by part number ([stock], [used_components],
      [labor_standards], [components_needed]) are [gmap string Z].
    - A DataFrame is the list of its rows, in row order.
    - Quantities are integers.  Labor standards are counted in units of
      1/10000 hour, so that [round(labor_hours, 4)] is the identity.
    - Dates are integers (an instant on the time axis); [None] is [NaT].
      The clock [datetime.now()] is read once per run.
    - The rows are taken after [astype(str)], [str.strip] and
      [normalize_so_number], which is embedded on its own over ASCII
      strings; every order has an order number, and a
      missing part number is the string ["nan"], exactly as [astype(str)]
      leaves it.
    - The relations are taken as loaded: the database connection and its
      failures are not part of the embedding.
    - Progress messages are kept as the list of messages sent, without
      the elapsed and estimated times they print.  The debug printing,
      which [DEBUG_MODE = False] switches off, and the performance
      tracker do not touch the variables of the loop and are left out.
    - The formatted strings of the result record ("Shortages",
      "Components") are renderings of [shortage_details] and
      [components_needed]; the embedding keeps those two values. *)

From stdpp Require Import gmap strings list fin_maps.
From Stdlib Require Import ZArith Lia Ascii String Sorting.Sorted Structures.OrdersEx.

Local Open Scope Z_scope.

(** ** Python and pandas primitives *)

(** [d.get(k, 0)] *)
Definition dict_get (d : gmap string Z) (k : string) : Z := default 0 (d !! k).

(** [groupby(key)[col].sum().to_dict()] over rows given as (key, value). *)
Definition groupby_sum (rows : list (string * Z)) : gmap string Z :=
  fold_left (fun d kv => <[kv.1 := dict_get d kv.1 + kv.2]> d) rows ∅.

(** [sum(...)] of a list of numbers. *)
Definition sumZ (l : list Z) : Z := fold_right Z.add 0 l.

(** [max(l, key=...)]: the first element whose key is maximal; Python keeps
    the current best unless a later key is strictly greater.  [None] stands
    for the [ValueError] on an empty sequence. *)
Fixpoint py_max_from {A} (key : A -> Z) (best : A) (l : list A) : A :=
  match l with
  | [] => best
  | x :: l' => if key best <? key x then py_max_from key x l'
               else py_max_from key best l'
  end.

Definition py_max {A} (key : A -> Z) (l : list A) : option A :=
  match l with
  | [] => None
  | x :: l' => Some (py_max_from key x l')
  end.

(** *** Three-way comparisons and [sort_values] *)

Section Comparisons.
Context {A B : Type}.

(** Compare through a projection (a column of the row). *)
Definition cmp_on (f : A -> B) (c : B -> B -> comparison) : A -> A -> comparison :=
  fun x y => c (f x) (f y).

(** [ascending=False] *)
Definition cmp_dir (asc : bool) (c : A -> A -> comparison) : A -> A -> comparison :=
  fun x y => if asc then c x y else c y x.

(** [na_position='last']: a missing value sorts after every present one,
    whatever the direction of the column. *)
Definition cmp_na_last (c : A -> A -> comparison) : option A -> option A -> comparison :=
  fun x y =>
    match x, y with
    | Some a, Some b => c a b
    | Some _, None => Lt
    | None, Some _ => Gt
    | None, None => Eq
    end.

(** Several sort columns: the first column that differs decides. *)
Definition cmp_lex (c1 c2 : A -> A -> comparison) : A -> A -> comparison :=
  fun x y => match c1 x y with Eq => c2 x y | r => r end.

Definition cmp_leb (c : A -> A -> comparison) (x y : A) : bool :=
  match c x y with Gt => false | _ => true end.
End Comparisons.

(** What makes a three-way comparison a total preorder. *)
Record order_like {A} (c : A -> A -> comparison) : Prop := {
  ol_antisym : forall x y, c y x = CompOpp (c x y);
  ol_lt_trans : forall x y z, c x y = Lt -> c y z = Lt -> c x z = Lt;
  ol_eq_l : forall x y z, c x y = Eq -> c x z = c y z
}.

(** A stable sort: pandas sorts several columns with a stable
    lexicographic sort, so rows that agree on every key keep their order. *)
Section Sort.
Context {A : Type} (leb : A -> A -> bool).

Fixpoint insert_sorted (x : A) (l : list A) : list A :=
  match l with
  | [] => [x]
  | y :: l' => if leb x y then x :: y :: l' else y :: insert_sorted x l'
  end.

Fixpoint stable_sort (l : list A) : list A :=
  match l with
  | [] => []
  | x :: l' => insert_sorted x (stable_sort l')
  end.
End Sort.

(** ** Data model *)

(** A cell of the "Component Qty Required" column, as [int(...)] sees it. *)
Inductive qty_cell :=
| QtyNaN                 (* pd.notna is false: the quantity is taken as 0 *)
| QtyNum (z : Z)         (* int(...) succeeds with z *)
| QtyBad (msg : string). (* int(...) raises; msg is str(e) *)

(** A row of the demand table once renamed and pre-processed. *)
Record demand_row := {
  SO_Number : string;
  Part : string;
  Planner : string;
  Start_Date : option Z;
  Demand : Z
}.

(** A row of [filtered_df_main]: the demand row and its "Hours_Calc". *)
Record order_row := {
  row : demand_row;
  Hours_Calc : Z
}.

(** A row of the planned-demand (BOM) table. *)
Record struct_row := {
  struct_SO_Number : string;
  Component_Part_Number : option string;
  Component_Qty_Required : qty_cell
}.

(** A row of [planned_demand]: the component part is present. *)
Record bom_row := {
  bom_SO_Number : string;
  bom_Component_Part_Number : string;
  bom_Component_Qty_Required : qty_cell
}.

(** A row of the purchase-order table. *)
Record po_row := {
  PO_Number : string;
  Part_Number : string;
  Qty_Due : Z;
  Promised_Due_Date : option Z
}.

(** The six relations [process_single_scenario] loads, and the clock. *)
Record database := {
  df_main_columns : list string;
  df_main : list demand_row;
  df_struct : list struct_row;
  df_component_demand : list (string * Z);
  df_ipis : list (string * Z);
  df_hours : list (string * Z);
  df_pos : list po_row;
  now : Z
}.

Inductive status := Skipped | Release | Hold.

Global Instance status_eq_dec : EqDecision status.
Proof. solve_decision. Defined.

(** One entry of [shortage_details]. *)
Inductive shortage_detail :=
| ShortPO (part : string) (short : Z) (po : po_row)
    (* "{comp_part} short {shortage} – PO {po_id} due {po_date}" *)
| ShortNeed (part : string) (need have short : Z)
    (* "{part} (need {required_qty}, have {true_available}, short {shortage})" *)
| ComponentError (msg : string)
    (* "Component processing error: {str(e)}" *)
| StockLookupFailed (part : string).
    (* "{part} (stock lookup failed)" *)

(** One element of [results]. *)
Record result := {
  res_SO_Number : string;
  res_Part : string;
  res_Planner : string;
  res_Start_Date : option Z;
  res_PB : bool;
  res_Demand : Z;
  res_Hours : Z;
  res_Status : status;
  res_shortage_details : list shortage_detail;
  res_components_needed : gmap string Z
}.

(** One element of [component_requirements]. *)
Record requirement := {
  req_part : string;
  req_required : Z;
  req_available : Z
}.

(** The sort columns a strategy may name. *)
Inductive column :=
| Col_Start_Date | Col_SO_Number | Col_Demand | Col_Hours_Calc | Col_Part | Col_Planner.

Record strategy := {
  name : string;
  columns : list column;
  ascending : list bool
}.

(** The comparison of two rows on one column.  Only "Start Date" can hold
    a missing value after the pre-processing. *)
Definition column_compare (col : column) (asc : bool) : order_row -> order_row -> comparison :=
  match col with
  | Col_Start_Date => cmp_on (fun r => Start_Date (row r)) (cmp_na_last (cmp_dir asc Z.compare))
  | Col_SO_Number => cmp_on (fun r => SO_Number (row r)) (cmp_dir asc String.compare)
  | Col_Demand => cmp_on (fun r => Demand (row r)) (cmp_dir asc Z.compare)
  | Col_Hours_Calc => cmp_on Hours_Calc (cmp_dir asc Z.compare)
  | Col_Part => cmp_on (fun r => Part (row r)) (cmp_dir asc String.compare)
  | Col_Planner => cmp_on (fun r => Planner (row r)) (cmp_dir asc String.compare)
  end.

Fixpoint sort_key_compare (cols : list column) (ascs : list bool)
  : order_row -> order_row -> comparison :=
  match cols, ascs with
  | c :: cols', a :: ascs' => cmp_lex (column_compare c a) (sort_key_compare cols' ascs')
  | _, _ => fun _ _ => Eq
  end.

(** [df.sort_values(cols, ascending=ascs, na_position='last')]; 'last' is
    also the default of [na_position]. *)
Definition sort_values (cols : list column) (ascs : list bool) (df : list order_row)
  : list order_row :=
  stable_sort (cmp_leb (sort_key_compare cols ascs)) df.

(** Planner codes of the four material categories, and of the metric
    groupings; the same literals appear in both source files. *)
Definition isin (l : list string) (s : string) : bool := existsb (String.eqb s) l.

(** The metrics of one planner grouping. *)
Record group_metrics := {
  total_count : Z;
  total_hours_g : Z;
  total_qty_g : Z;
  releasable_count_g : Z;
  releasable_hours_g : Z;
  releasable_qty_g : Z
}.

(** The ['metrics'] dictionary of a scenario. *)
Record metrics := {
  total_orders : Z;
  releasable_count : Z;
  held_count : Z;
  pb_count : Z;
  skipped_count : Z;
  total_hours : Z;
  releasable_hours : Z;
  held_hours : Z;
  total_qty : Z;
  releasable_qty : Z;
  held_qty : Z;
  kits : group_metrics;
  bvi_kits : group_metrics;
  malosa_kits : group_metrics;
  instruments : group_metrics;
  manufacturing : group_metrics;
  assembly : group_metrics;
  packaging : group_metrics;
  malosa_instruments : group_metrics;
  virtuoso : group_metrics;
  committed_parts_count : Z;
  total_committed_qty : Z;
  kit_samples : group_metrics
}.

(** The dictionary [process_single_scenario] returns. *)
Record scenario := {
  scenario_name : string;
  sorting_strategy : string;
  results_df : list result;
  scenario_metrics : metrics
}.

(** The exceptions that leave [process_single_scenario] or the search. *)
Inductive error :=
| Missing_required_columns (missing_columns : list string)
    (* ValueError("Missing required columns in Demand table: ...") *)
| Max_of_empty_sequence.
    (* ValueError of max() on an empty list *)

(** What the min/max search keeps: every run and the three winners. *)
Record optimisation := {
  all_strategy_results : list scenario;
  best_orders_strategy : scenario;
  best_hours_strategy : scenario;
  best_qty_strategy : scenario
}.

(** The state of the loop over the lines of one BOM. *)
Record bom_check := {
  all_components_available : bool;
  component_requirements : list requirement;
  components_needed : gmap string Z;
  shortage_details : list shortage_detail
}.

(** The state the loop starts from: [all_components_available = True],
    [component_requirements = []], [components_needed = {}],
    [shortage_details = []]. *)
Definition empty_check : bom_check :=
  {| all_components_available := true;
     component_requirements := [];
     components_needed := ∅;
     shortage_details := [] |}.

(** [int(comp["Component Qty Required"]) if pd.notna(...) else 0];
    [inl] carries the message of the exception [int] raises. *)
Definition required_qty_of (c : qty_cell) : string + Z :=
  match c with
  | QtyNaN => inr 0
  | QtyNum z => inr z
  | QtyBad msg => inl msg
  end.

(** [strategy['name'].replace(' ', '_').replace('(', '').replace(')', '')] *)
Fixpoint scenario_suffix (s : string) : string :=
  match s with
  | EmptyString => EmptyString
  | String c s' =>
      if Ascii.eqb c " "%char then String "_"%char (scenario_suffix s')
      else if Ascii.eqb c "("%char || Ascii.eqb c ")"%char then scenario_suffix s'
      else String c (scenario_suffix s')
  end.

(** A progress message handed to the status callback (or emitted on the
    worker's signal), up to the elapsed and estimated times it prints. *)
Inductive progress :=
| Msg_loading (scenario_num total_scenarios : Z) (strategy_name : string)
    (* "[Scenario n/N] Loading data from database (strategy)..." *)
| Msg_commitments (scenario_num total_scenarios : Z) (strategy_name : string)
    (* "[Scenario n/N] Processing commitments (strategy)..." *)
| Msg_structures (scenario_num total_scenarios : Z) (strategy_name : string)
    (* "[Scenario n/N] Building planned demand structures (strategy)..." *)
| Msg_filtered (scenario_num total_scenarios : Z) (strategy_name : string)
    (total_filtered total_original excluded : Z)
    (* "[Scenario n/N] Filtered data: f/o orders selected (e excluded) ..." *)
| Msg_completed (scenario_num total_scenarios : Z) (strategy_name : string) (total : Z)
    (* "[Scenario n/N] Database (strategy) - Completed total orders in ..." *)
| Msg_progress_more (scenario_num total_scenarios : Z) (strategy_name : string)
    (processed total remaining_scenarios : Z)
    (* "[Scenario n/N] strategy - processed/total (pct%) | ...s + k more" *)
| Msg_progress_last (scenario_num total_scenarios : Z) (strategy_name : string)
    (processed total : Z)
    (* "[Scenario n/N] strategy - processed/total (pct%) | ...s remaining" *)
| Msg_minmax_mode (strategies total_scenarios : Z)
    (* "MIN/MAX MODE: Testing k sorting strategies on database = N total scenarios" *)
| Msg_strategy_done (scenario_num total_scenarios : Z) (strategy_name : string)
    (releasable total_orders : Z) (more_to_come : bool)
    (* "[n/N] strategy: r/t orders (...) | ...s remaining" or
       "... | OPTIMIZATION COMPLETE!" *)
| Msg_optimized (orders_strategy : string) (orders : Z)
    (hours_strategy : string) (hours : Z) (qty_strategy : string) (qty : Z).
    (* "Database optimized: Orders=.. (..), Hours=.. (..), Qty=.. (..)" *)

(** What the order loop leaves behind: the messages sent, [results], and
    [used_components]. *)
Record loop := {
  loop_messages : list progress;
  loop_results : list result;
  loop_used_components : gmap string Z
}.

(** ** The engine of AMCBDG_SQL.py *)

Module SQL.

Definition get_sorting_strategies : list strategy := [
  {| name := "Start Date (Early First)"; columns := [Col_Start_Date; Col_SO_Number]; ascending := [true; true] |};
  {| name := "Start Date (Late First)"; columns := [Col_Start_Date; Col_SO_Number]; ascending := [false; true] |};
  {| name := "Demand (Small First)"; columns := [Col_Demand; Col_Start_Date]; ascending := [true; true] |};
  {| name := "Demand (Large First)"; columns := [Col_Demand; Col_Start_Date]; ascending := [false; true] |};
  {| name := "Hours (Quick First)"; columns := [Col_Hours_Calc; Col_Start_Date]; ascending := [true; true] |};
  {| name := "Hours (Long First)"; columns := [Col_Hours_Calc; Col_Start_Date]; ascending := [false; true] |};
  {| name := "Part Number (A-Z)"; columns := [Col_Part; Col_Start_Date]; ascending := [true; true] |};
  {| name := "Part Number (Z-A)"; columns := [Col_Part; Col_Start_Date]; ascending := [false; true] |};
  {| name := "Planner (A-Z)"; columns := [Col_Planner; Col_Start_Date]; ascending := [true; true] |};
  {| name := "Planner (Z-A)"; columns := [Col_Planner; Col_Start_Date]; ascending := [false; true] |}
].

Definition build_stock_dictionary (df_ipis : list (string * Z)) : gmap string Z :=
  match df_ipis with
  | [] => ∅
  | _ => groupby_sum df_ipis ∪ ∅   (* stock.update(ipis_stock) on the empty dict *)
  end.

Section Engine.
Variable stock : gmap string Z.
Variable labor_standards : gmap string Z.
Variable planned_demand : list bom_row.
Variable df_pos : list po_row.
Variable now : Z.

(** [df_pos[(Part Number == comp_part) & (Promised Due Date >= now)]];
    a comparison with [NaT] is false. *)
Definition future_pos (comp_part : string) : list po_row :=
  List.filter
    (fun po => String.eqb (Part_Number po) comp_part
               && match Promised_Due_Date po with
                  | Some d => now <=? d
                  | None => false
                  end)
    df_pos.

(** The scan for [po_match]: the first row with [po_qty >= shortage]. *)
Definition po_match (comp_part : string) (shortage : Z) : option po_row :=
  List.find (fun po => shortage <=? Qty_Due po) (future_pos comp_part).

(** The body of [for _, comp in bom.iterrows()], with its [try]/[except]. *)
Definition check_component (used_components : gmap string Z)
    (st : bom_check) (comp : bom_row) : bom_check :=
  let comp_part := bom_Component_Part_Number comp in
  match required_qty_of (bom_Component_Qty_Required comp) with
  | inl e =>
      {| all_components_available := false;
         component_requirements := component_requirements st;
         components_needed := components_needed st;
         shortage_details := shortage_details st ++ [ComponentError e] |}
  | inr required_qty =>
      let total_used := dict_get used_components comp_part in
      let true_available := dict_get stock comp_part - total_used in
      let available := Z.max 0 true_available in
      let available_after_usage := true_available - required_qty in
      let will_be_sufficient := required_qty <=? true_available in
      let component_requirements' :=
        component_requirements st ++
          [{| req_part := comp_part; req_required := required_qty;
              req_available := available |}] in
      let components_needed' := <[comp_part := required_qty]> (components_needed st) in
      if will_be_sufficient then
        {| all_components_available := all_components_available st;
           component_requirements := component_requirements';
           components_needed := components_needed';
           shortage_details := shortage_details st |}
      else
        let shortage := Z.abs available_after_usage in
        {| all_components_available := false;
           component_requirements := component_requirements';
           components_needed := components_needed';
           shortage_details :=
             shortage_details st ++
               [match po_match comp_part shortage with
                | Some po => ShortPO comp_part shortage po
                | None => ShortNeed comp_part required_qty true_available shortage
                end] |}
  end.

(** The commit loop [for req in component_requirements]. *)
Definition allocate_components (reqs : list requirement)
    (used_components : gmap string Z) : gmap string Z :=
  fold_left
    (fun used req =>
       <[req_part req := dict_get used (req_part req) + req_required req]> used)
    reqs used_components.

Definition bom_of (so : string) : list bom_row :=
  List.filter (fun b => String.eqb (bom_SO_Number b) so) planned_demand.

(** One iteration of [for _, row in filtered_df_main.iterrows()]: the
    result appended to [results] and the dictionary [used_components]
    after the iteration.  The [except] clause of the branch without BOM
    ("stock lookup failed") guards dictionary lookups and arithmetic, which
    do not raise on these values; it has no counterpart here. *)
Definition process_order (used_components : gmap string Z) (r : order_row)
  : result * gmap string Z :=
  let so := SO_Number (row r) in
  let part := Part (row r) in
  let demand_qty := if 0 <? Demand (row r) then Demand (row r) else 0 in
  let planner := Planner (row r) in
  let start_date := Start_Date (row r) in
  if String.eqb part "nan" || (demand_qty <=? 0) then
    ({| res_SO_Number := so;
        res_Part := if String.eqb part "" then "MISSING" else part;
        res_Planner := planner;
        res_Start_Date := start_date;
        res_PB := false;
        res_Demand := demand_qty;
        res_Hours := 0;
        res_Status := Skipped;
        res_shortage_details := [];
        res_components_needed := ∅ |}, used_components)
  else
    let pb_check := ("NS" ++ part ++ "99")%string in
    let is_pb := isin (map bom_Component_Part_Number planned_demand) pb_check in
    let bom := bom_of so in
    let base_hours := dict_get labor_standards part in
    let labor_hours := base_hours * demand_qty in
    match bom with
    | _ :: _ =>
        let st := fold_left (check_component used_components) bom empty_check in
        let releasable := all_components_available st in
        ({| res_SO_Number := so; res_Part := part; res_Planner := planner;
            res_Start_Date := start_date; res_PB := is_pb;
            res_Demand := demand_qty; res_Hours := labor_hours;
            res_Status := if releasable then Release else Hold;
            res_shortage_details := shortage_details st;
            res_components_needed := components_needed st |},
         if releasable
         then allocate_components (component_requirements st) used_components
         else used_components)
    | [] =>
        let total_used := dict_get used_components part in
        let true_available := dict_get stock part - total_used in
        let available_after_usage := true_available - demand_qty in
        if demand_qty <=? true_available then
          ({| res_SO_Number := so; res_Part := part; res_Planner := planner;
              res_Start_Date := start_date; res_PB := is_pb;
              res_Demand := demand_qty; res_Hours := labor_hours;
              res_Status := Release;
              res_shortage_details := [];
              res_components_needed := ∅ |},
           <[part := dict_get used_components part + demand_qty]> used_components)
        else
          let shortage := Z.abs available_after_usage in
          ({| res_SO_Number := so; res_Part := part; res_Planner := planner;
              res_Start_Date := start_date; res_PB := is_pb;
              res_Demand := demand_qty; res_Hours := labor_hours;
              res_Status := Hold;
              res_shortage_details := [ShortNeed part demand_qty true_available shortage];
              res_components_needed := ∅ |},
           used_components)
    end.

Variable status_callback : bool.
Variable scenario_num total_scenarios : Z.
Variable strategy_name : string.

(** The message of the "UPDATE UI" block, which the callback receives
    every 100 orders, at the first order and at the last. *)
Definition progress_message (processed total : Z) : progress :=
  if processed =? total then
    Msg_completed scenario_num total_scenarios strategy_name total
  else
    let remaining_scenarios := total_scenarios - scenario_num in
    if 0 <? remaining_scenarios then
      Msg_progress_more scenario_num total_scenarios strategy_name
        processed total remaining_scenarios
    else
      Msg_progress_last scenario_num total_scenarios strategy_name processed total.

Definition progress_update (processed total : Z) : list progress :=
  if (processed mod 100 =? 0) || (processed =? total) || (processed =? 1) then
    if status_callback then [progress_message processed total] else []
  else [].

(** The whole loop, [processed] counting the orders seen so far. *)
Fixpoint process_orders (processed total : Z) (used_components : gmap string Z)
    (orders : list order_row) : loop :=
  match orders with
  | [] => {| loop_messages := []; loop_results := [];
             loop_used_components := used_components |}
  | r :: orders' =>
      let processed := processed + 1 in
      let out := process_order used_components r in
      let rest := process_orders processed total out.2 orders' in
      {| loop_messages := progress_update processed total ++ loop_messages rest;
         loop_results := out.1 :: loop_results rest;
         loop_used_components := loop_used_components rest |}
  end.

End Engine.

(** The summary metrics computed from [df_results]. *)
Definition with_status (s : status) (results : list result) : list result :=
  List.filter (fun r => bool_decide (res_Status r = s)) results.

Definition with_planner (planners : list string) (results : list result) : list result :=
  List.filter (fun r => isin planners (res_Planner r)) results.

Definition len {A} (l : list A) : Z := Z.of_nat (List.length l).

Definition group (planners : list string) (df_results releasable_results : list result)
  : group_metrics :=
  let total := with_planner planners df_results in
  let releasable := with_planner planners releasable_results in
  {| total_count := len total;
     total_hours_g := sumZ (map res_Hours total);
     total_qty_g := sumZ (map res_Demand total);
     releasable_count_g := len releasable;
     releasable_hours_g := sumZ (map res_Hours releasable);
     releasable_qty_g := sumZ (map res_Demand releasable) |}.

Definition group_add (a b : group_metrics) : group_metrics :=
  {| total_count := total_count a + total_count b;
     total_hours_g := total_hours_g a + total_hours_g b;
     total_qty_g := total_qty_g a + total_qty_g b;
     releasable_count_g := releasable_count_g a + releasable_count_g b;
     releasable_hours_g := releasable_hours_g a + releasable_hours_g b;
     releasable_qty_g := releasable_qty_g a + releasable_qty_g b |}.

Definition summary_metrics (df_results : list result)
    (committed_components : gmap string Z) : metrics :=
  let total_orders := len df_results in
  let releasable_count := len (with_status Release df_results) in
  let held_count := total_orders - releasable_count in
  let pb_count := len (List.filter res_PB df_results) in
  let skipped_count := len (with_status Skipped df_results) in
  let releasable_results := with_status Release df_results in
  let held_results := with_status Hold df_results in
  let bvi := group ["3001"; "3801"] df_results releasable_results in
  let malosa := group ["5001"] df_results releasable_results in
  let manufacturing := group ["3802"] df_results releasable_results in
  let assembly := group ["3803"] df_results releasable_results in
  let packaging := group ["3804"] df_results releasable_results in
  let malosa_instruments := group ["3805"] df_results releasable_results in
  {| total_orders := total_orders;
     releasable_count := releasable_count;
     held_count := held_count;
     pb_count := pb_count;
     skipped_count := skipped_count;
     total_hours := sumZ (map res_Hours df_results);
     releasable_hours := sumZ (map res_Hours releasable_results);
     held_hours := sumZ (map res_Hours held_results);
     total_qty := sumZ (map res_Demand df_results);
     releasable_qty := sumZ (map res_Demand releasable_results);
     held_qty := sumZ (map res_Demand held_results);
     kits := group_add bvi malosa;
     bvi_kits := bvi;
     malosa_kits := malosa;
     instruments :=
       group_add (group_add (group_add manufacturing assembly) packaging) malosa_instruments;
     manufacturing := manufacturing;
     assembly := assembly;
     packaging := packaging;
     malosa_instruments := malosa_instruments;
     virtuoso := group ["3806"] df_results releasable_results;
     committed_parts_count := Z.of_nat (size committed_components);
     total_committed_qty := sumZ (map snd (map_to_list committed_components));
     kit_samples := group ["KIT SAMPLES"] df_results releasable_results |}.

(** The preparation of [filtered_df_main]: category filter, "Hours_Calc",
    sort. *)
Definition filter_mask (include_kits include_instruments include_virtuoso
    include_kit_samples : bool) (r : demand_row) : bool :=
  let m := false in
  let m := if include_kits then m || isin ["3001"; "3801"; "5001"] (Planner r) else m in
  let m := if include_instruments
           then m || isin ["3802"; "3803"; "3804"; "3805"] (Planner r) else m in
  let m := if include_virtuoso then m || isin ["3806"] (Planner r) else m in
  let m := if include_kit_samples then m || isin ["KIT SAMPLES"] (Planner r) else m in
  m.

Definition apply_sorting (sorting : option strategy) (df : list order_row)
  : list order_row :=
  match sorting with
  | Some s =>
      fold_left
        (fun df col =>
           match col with
           | Col_Start_Date => sort_values (columns s) (ascending s) df
           | _ => sort_values (columns s) (ascending s) df
           end)
        (columns s) df
  | None => sort_values [Col_Start_Date; Col_SO_Number] [true; true] df
  end.

Definition required_columns : list string :=
  ["SO No"; "Part No"; "Planner"; "Start Date"; "Rev Qty Due"].

Definition planned_demand_of (df_struct : list struct_row) : list bom_row :=
  omap (fun s => match Component_Part_Number s with
                 | Some p => Some {| bom_SO_Number := struct_SO_Number s;
                                     bom_Component_Part_Number := p;
                                     bom_Component_Qty_Required := Component_Qty_Required s |}
                 | None => None
                 end) df_struct.

Definition filtered_df_main (db : database) (sorting : option strategy)
    (include_kits include_instruments include_virtuoso include_kit_samples : bool)
  : list order_row :=
  let labor_standards := groupby_sum (df_hours db) in
  let filtered :=
    List.filter (filter_mask include_kits include_instruments include_virtuoso
                   include_kit_samples) (df_main db) in
  let with_hours :=
    map (fun r => {| row := r;
                     Hours_Calc := dict_get labor_standards (Part r) * Demand r |})
      filtered in
  apply_sorting sorting with_hours.

Definition process_single_scenario (db : database) (scenario_name : string)
    (status_callback : bool) (scenario_num total_scenarios : Z)
    (sorting : option strategy)
    (include_kits include_instruments include_virtuoso include_kit_samples : bool)
  : list progress * (error + scenario) :=
  let strategy_name := match sorting with Some s => name s | None => "Default" end in
  let loading :=
    if status_callback
    then [Msg_loading scenario_num total_scenarios strategy_name] else [] in
  let missing_columns :=
    List.filter (fun col => negb (isin (df_main_columns db) col)) required_columns in
  match missing_columns with
  | _ :: _ => (loading, inl (Missing_required_columns missing_columns))
  | [] =>
      let commitments :=
        if status_callback
        then [Msg_commitments scenario_num total_scenarios strategy_name] else [] in
      let stock := build_stock_dictionary (df_ipis db) in
      let committed_components :=
        match df_component_demand db with
        | [] => ∅
        | _ => groupby_sum (df_component_demand db)
        end in
      let used_components := committed_components in
      let labor_standards := groupby_sum (df_hours db) in
      let structures :=
        if status_callback
        then [Msg_structures scenario_num total_scenarios strategy_name] else [] in
      let planned_demand := planned_demand_of (df_struct db) in
      let total_original := len (df_main db) in
      let total_filtered :=
        len (List.filter (filter_mask include_kits include_instruments
                            include_virtuoso include_kit_samples) (df_main db)) in
      let filtered :=
        if status_callback
        then [Msg_filtered scenario_num total_scenarios strategy_name
                total_filtered total_original (total_original - total_filtered)]
        else [] in
      let orders := filtered_df_main db sorting include_kits include_instruments
                      include_virtuoso include_kit_samples in
      let run :=
        process_orders stock labor_standards planned_demand (df_pos db) (now db)
          status_callback scenario_num total_scenarios strategy_name
          0 (len orders) used_components orders in
      let results := loop_results run in
      (loading ++ commitments ++ structures ++ filtered ++ loop_messages run,
       inr {| scenario_name := scenario_name;
              sorting_strategy := match sorting with
                                  | Some s => name s
                                  | None => "Default (Start Date)"
                                  end;
              results_df := results;
              scenario_metrics := summary_metrics results committed_components |})
  end.

(** The min/max branch of [load_and_process_database]: one run per
    strategy, each reporting to [update_progress], then the three
    winners. *)
Fixpoint run_strategies (db : database) (scenario_num total_scenarios : Z)
    (strategies : list strategy)
    (include_kits include_instruments include_virtuoso include_kit_samples : bool)
  : list progress * (error + list scenario) :=
  match strategies with
  | [] => ([], inr [])
  | s :: strategies' =>
      let scenario_num := scenario_num + 1 in
      let run := process_single_scenario db
                   ("Database_" ++ scenario_suffix (name s)) true
                   scenario_num total_scenarios (Some s)
                   include_kits include_instruments include_virtuoso
                   include_kit_samples in
      match run.2 with
      | inl e => (run.1, inl e)
      | inr scenario_result =>
          let metrics := scenario_metrics scenario_result in
          let remaining_scenarios := total_scenarios - scenario_num in
          let completed :=
            Msg_strategy_done scenario_num total_scenarios (name s)
              (releasable_count metrics) (total_orders metrics)
              (0 <? remaining_scenarios) in
          let rest := run_strategies db scenario_num total_scenarios strategies'
                        include_kits include_instruments include_virtuoso
                        include_kit_samples in
          (run.1 ++ completed :: rest.1,
           match rest.2 with
           | inl e => inl e
           | inr results => inr (scenario_result :: results)
           end)
      end
  end.

Definition find_best (all_results : list scenario) : error + optimisation :=
  match py_max (fun s => releasable_count (scenario_metrics s)) all_results,
        py_max (fun s => releasable_hours (scenario_metrics s)) all_results,
        py_max (fun s => releasable_qty (scenario_metrics s)) all_results with
  | Some bo, Some bh, Some bq =>
      inr {| all_strategy_results := all_results;
             best_orders_strategy := bo;
             best_hours_strategy := bh;
             best_qty_strategy := bq |}
  | _, _, _ => inl Max_of_empty_sequence
  end.

Definition optimized_message (opt : optimisation) : progress :=
  Msg_optimized
    (sorting_strategy (best_orders_strategy opt))
    (releasable_count (scenario_metrics (best_orders_strategy opt)))
    (sorting_strategy (best_hours_strategy opt))
    (releasable_hours (scenario_metrics (best_hours_strategy opt)))
    (sorting_strategy (best_qty_strategy opt))
    (releasable_qty (scenario_metrics (best_qty_strategy opt))).

Definition load_and_process_database (db : database)
    (include_kits include_instruments include_virtuoso include_kit_samples : bool)
  : list progress * (error + optimisation) :=
  let strategies := get_sorting_strategies in
  let total_scenarios := len strategies in
  let started := Msg_minmax_mode (len strategies) total_scenarios in
  let runs := run_strategies db 0 total_scenarios strategies include_kits
                include_instruments include_virtuoso include_kit_samples in
  match runs.2 with
  | inl e => (started :: runs.1, inl e)
  | inr all_strategy_results =>
      match find_best all_strategy_results with
      | inl e => (started :: runs.1, inl e)
      | inr opt => (started :: runs.1 ++ [optimized_message opt], inr opt)
      end
  end.

End SQL.


(** ** The engine of AMCBDG_SQL_Qt6.py

    The same loop, duplicated as a method of the worker thread: the
    category flags are fields of [self] and every progress message is
    emitted on the signal [progress_updated]. *)

Module Qt6.

Record ProcessingWorker := {
  minmax_mode : bool;
  include_kits : bool;
  include_instruments : bool;
  include_virtuoso : bool;
  include_kit_samples : bool
}.

Definition get_sorting_strategies : list strategy := [
  {| name := "Start Date (Early First)"; columns := [Col_Start_Date; Col_SO_Number]; ascending := [true; true] |};
  {| name := "Start Date (Late First)"; columns := [Col_Start_Date; Col_SO_Number]; ascending := [false; true] |};
  {| name := "Demand (Small First)"; columns := [Col_Demand; Col_Start_Date]; ascending := [true; true] |};
  {| name := "Demand (Large First)"; columns := [Col_Demand; Col_Start_Date]; ascending := [false; true] |};
  {| name := "Hours (Quick First)"; columns := [Col_Hours_Calc; Col_Start_Date]; ascending := [true; true] |};
  {| name := "Hours (Long First)"; columns := [Col_Hours_Calc; Col_Start_Date]; ascending := [false; true] |};
  {| name := "Part Number (A-Z)"; columns := [Col_Part; Col_Start_Date]; ascending := [true; true] |};
  {| name := "Part Number (Z-A)"; columns := [Col_Part; Col_Start_Date]; ascending := [false; true] |};
  {| name := "Planner (A-Z)"; columns := [Col_Planner; Col_Start_Date]; ascending := [true; true] |};
  {| name := "Planner (Z-A)"; columns := [Col_Planner; Col_Start_Date]; ascending := [false; true] |}
].

Definition build_stock_dictionary (df_ipis : list (string * Z)) : gmap string Z :=
  match df_ipis with
  | [] => ∅
  | _ => groupby_sum df_ipis ∪ ∅   (* stock.update(ipis_stock) on the empty dict *)
  end.

Section Engine.
Variable stock : gmap string Z.
Variable labor_standards : gmap string Z.
Variable planned_demand : list bom_row.
Variable df_pos : list po_row.
Variable now : Z.

(** [df_pos[(Part Number == comp_part) & (Promised Due Date >= now)]];
    a comparison with [NaT] is false. *)
Definition future_pos (comp_part : string) : list po_row :=
  List.filter
    (fun po => String.eqb (Part_Number po) comp_part
               && match Promised_Due_Date po with
                  | Some d => now <=? d
                  | None => false
                  end)
    df_pos.

(** The scan for [po_match]: the first row with [po_qty >= shortage]. *)
Definition po_match (comp_part : string) (shortage : Z) : option po_row :=
  List.find (fun po => shortage <=? Qty_Due po) (future_pos comp_part).

(** The body of [for _, comp in bom.iterrows()], with its [try]/[except]. *)
Definition check_component (used_components : gmap string Z)
    (st : bom_check) (comp : bom_row) : bom_check :=
  let comp_part := bom_Component_Part_Number comp in
  match required_qty_of (bom_Component_Qty_Required comp) with
  | inl e =>
      {| all_components_available := false;
         component_requirements := component_requirements st;
         components_needed := components_needed st;
         shortage_details := shortage_details st ++ [ComponentError e] |}
  | inr required_qty =>
      let total_used := dict_get used_components comp_part in
      let true_available := dict_get stock comp_part - total_used in
      let available := Z.max 0 true_available in
      let available_after_usage := true_available - required_qty in
      let will_be_sufficient := required_qty <=? true_available in
      let component_requirements' :=
        component_requirements st ++
          [{| req_part := comp_part; req_required := required_qty;
              req_available := available |}] in
      let components_needed' := <[comp_part := required_qty]> (components_needed st) in
      if will_be_sufficient then
        {| all_components_available := all_components_available st;
           component_requirements := component_requirements';
           components_needed := components_needed';
           shortage_details := shortage_details st |}
      else
        let shortage := Z.abs available_after_usage in
        {| all_components_available := false;
           component_requirements := component_requirements';
           components_needed := components_needed';
           shortage_details :=
             shortage_details st ++
               [match po_match comp_part shortage with
                | Some po => ShortPO comp_part shortage po
                | None => ShortNeed comp_part required_qty true_available shortage
                end] |}
  end.

(** The commit loop [for req in component_requirements]. *)
Definition allocate_components (reqs : list requirement)
    (used_components : gmap string Z) : gmap string Z :=
  fold_left
    (fun used req =>
       <[req_part req := dict_get used (req_part req) + req_required req]> used)
    reqs used_components.

Definition bom_of (so : string) : list bom_row :=
  List.filter (fun b => String.eqb (bom_SO_Number b) so) planned_demand.

(** One iteration of [for _, row in filtered_df_main.iterrows()]: the
    result appended to [results] and the dictionary [used_components]
    after the iteration.  The [except] clause of the branch without BOM
    ("stock lookup failed") guards dictionary lookups and arithmetic, which
    do not raise on these values; it has no counterpart here. *)
Definition process_order (used_components : gmap string Z) (r : order_row)
  : result * gmap string Z :=
  let so := SO_Number (row r) in
  let part := Part (row r) in
  let demand_qty := if 0 <? Demand (row r) then Demand (row r) else 0 in
  let planner := Planner (row r) in
  let start_date := Start_Date (row r) in
  if String.eqb part "nan" || (demand_qty <=? 0) then
    ({| res_SO_Number := so;
        res_Part := if String.eqb part "" then "MISSING" else part;
        res_Planner := planner;
        res_Start_Date := start_date;
        res_PB := false;
        res_Demand := demand_qty;
        res_Hours := 0;
        res_Status := Skipped;
        res_shortage_details := [];
        res_components_needed := ∅ |}, used_components)
  else
    let pb_check := ("NS" ++ part ++ "99")%string in
    let is_pb := isin (map bom_Component_Part_Number planned_demand) pb_check in
    let bom := bom_of so in
    let base_hours := dict_get labor_standards part in
    let labor_hours := base_hours * demand_qty in
    match bom with
    | _ :: _ =>
        let st := fold_left (check_component used_components) bom empty_check in
        let releasable := all_components_available st in
        ({| res_SO_Number := so; res_Part := part; res_Planner := planner;
            res_Start_Date := start_date; res_PB := is_pb;
            res_Demand := demand_qty; res_Hours := labor_hours;
            res_Status := if releasable then Release else Hold;
            res_shortage_details := shortage_details st;
            res_components_needed := components_needed st |},
         if releasable
         then allocate_components (component_requirements st) used_components
         else used_components)
    | [] =>
        let total_used := dict_get used_components part in
        let true_available := dict_get stock part - total_used in
        let available_after_usage := true_available - demand_qty in
        if demand_qty <=? true_available then
          ({| res_SO_Number := so; res_Part := part; res_Planner := planner;
              res_Start_Date := start_date; res_PB := is_pb;
              res_Demand := demand_qty; res_Hours := labor_hours;
              res_Status := Release;
              res_shortage_details := [];
              res_components_needed := ∅ |},
           <[part := dict_get used_components part + demand_qty]> used_components)
        else
          let shortage := Z.abs available_after_usage in
          ({| res_SO_Number := so; res_Part := part; res_Planner := planner;
              res_Start_Date := start_date; res_PB := is_pb;
              res_Demand := demand_qty; res_Hours := labor_hours;
              res_Status := Hold;
              res_shortage_details := [ShortNeed part demand_qty true_available shortage];
              res_components_needed := ∅ |},
           used_components)
    end.

Variable scenario_num total_scenarios : Z.
Variable strategy_name : string.

(** The message of the "UPDATE UI" block, emitted every 100 orders, at
    the first order and at the last. *)
Definition progress_message (processed total : Z) : progress :=
  if processed =? total then
    Msg_completed scenario_num total_scenarios strategy_name total
  else
    let remaining_scenarios := total_scenarios - scenario_num in
    if 0 <? remaining_scenarios then
      Msg_progress_more scenario_num total_scenarios strategy_name
        processed total remaining_scenarios
    else
      Msg_progress_last scenario_num total_scenarios strategy_name processed total.

Definition progress_update (processed total : Z) : list progress :=
  if (processed mod 100 =? 0) || (processed =? total) || (processed =? 1) then
    [progress_message processed total]
  else [].

(** The whole loop, [processed] counting the orders seen so far. *)
Fixpoint process_orders (processed total : Z) (used_components : gmap string Z)
    (orders : list order_row) : loop :=
  match orders with
  | [] => {| loop_messages := []; loop_results := [];
             loop_used_components := used_components |}
  | r :: orders' =>
      let processed := processed + 1 in
      let out := process_order used_components r in
      let rest := process_orders processed total out.2 orders' in
      {| loop_messages := progress_update processed total ++ loop_messages rest;
         loop_results := out.1 :: loop_results rest;
         loop_used_components := loop_used_components rest |}
  end.

End Engine.

(** The summary metrics computed from [df_results]. *)
Definition with_status (s : status) (results : list result) : list result :=
  List.filter (fun r => bool_decide (res_Status r = s)) results.

Definition with_planner (planners : list string) (results : list result) : list result :=
  List.filter (fun r => isin planners (res_Planner r)) results.

Definition len {A} (l : list A) : Z := Z.of_nat (List.length l).

Definition group (planners : list string) (df_results releasable_results : list result)
  : group_metrics :=
  let total := with_planner planners df_results in
  let releasable := with_planner planners releasable_results in
  {| total_count := len total;
     total_hours_g := sumZ (map res_Hours total);
     total_qty_g := sumZ (map res_Demand total);
     releasable_count_g := len releasable;
     releasable_hours_g := sumZ (map res_Hours releasable);
     releasable_qty_g := sumZ (map res_Demand releasable) |}.

Definition group_add (a b : group_metrics) : group_metrics :=
  {| total_count := total_count a + total_count b;
     total_hours_g := total_hours_g a + total_hours_g b;
     total_qty_g := total_qty_g a + total_qty_g b;
     releasable_count_g := releasable_count_g a + releasable_count_g b;
     releasable_hours_g := releasable_hours_g a + releasable_hours_g b;
     releasable_qty_g := releasable_qty_g a + releasable_qty_g b |}.

Definition summary_metrics (df_results : list result)
    (committed_components : gmap string Z) : metrics :=
  let total_orders := len df_results in
  let releasable_count := len (with_status Release df_results) in
  let held_count := total_orders - releasable_count in
  let pb_count := len (List.filter res_PB df_results) in
  let skipped_count := len (with_status Skipped df_results) in
  let releasable_results := with_status Release df_results in
  let held_results := with_status Hold df_results in
  let bvi := group ["3001"; "3801"] df_results releasable_results in
  let malosa := group ["5001"] df_results releasable_results in
  let manufacturing := group ["3802"] df_results releasable_results in
  let assembly := group ["3803"] df_results releasable_results in
  let packaging := group ["3804"] df_results releasable_results in
  let malosa_instruments := group ["3805"] df_results releasable_results in
  {| total_orders := total_orders;
     releasable_count := releasable_count;
     held_count := held_count;
     pb_count := pb_count;
     skipped_count := skipped_count;
     total_hours := sumZ (map res_Hours df_results);
     releasable_hours := sumZ (map res_Hours releasable_results);
     held_hours := sumZ (map res_Hours held_results);
     total_qty := sumZ (map res_Demand df_results);
     releasable_qty := sumZ (map res_Demand releasable_results);
     held_qty := sumZ (map res_Demand held_results);
     kits := group_add bvi malosa;
     bvi_kits := bvi;
     malosa_kits := malosa;
     instruments :=
       group_add (group_add (group_add manufacturing assembly) packaging) malosa_instruments;
     manufacturing := manufacturing;
     assembly := assembly;
     packaging := packaging;
     malosa_instruments := malosa_instruments;
     virtuoso := group ["3806"] df_results releasable_results;
     committed_parts_count := Z.of_nat (size committed_components);
     total_committed_qty := sumZ (map snd (map_to_list committed_components));
     kit_samples := group ["KIT SAMPLES"] df_results releasable_results |}.

(** The preparation of [filtered_df_main]: category filter, "Hours_Calc",
    sort. *)
Definition filter_mask (self : ProcessingWorker) (r : demand_row) : bool :=
  let m := false in
  let m := if include_kits self then m || isin ["3001"; "3801"; "5001"] (Planner r) else m in
  let m := if include_instruments self
           then m || isin ["3802"; "3803"; "3804"; "3805"] (Planner r) else m in
  let m := if include_virtuoso self then m || isin ["3806"] (Planner r) else m in
  let m := if include_kit_samples self then m || isin ["KIT SAMPLES"] (Planner r) else m in
  m.

Definition apply_sorting (sorting : option strategy) (df : list order_row)
  : list order_row :=
  match sorting with
  | Some s =>
      fold_left
        (fun df col =>
           match col with
           | Col_Start_Date => sort_values (columns s) (ascending s) df
           | _ => sort_values (columns s) (ascending s) df
           end)
        (columns s) df
  | None => sort_values [Col_Start_Date; Col_SO_Number] [true; true] df
  end.

Definition required_columns : list string :=
  ["SO No"; "Part No"; "Planner"; "Start Date"; "Rev Qty Due"].

Definition planned_demand_of (df_struct : list struct_row) : list bom_row :=
  omap (fun s => match Component_Part_Number s with
                 | Some p => Some {| bom_SO_Number := struct_SO_Number s;
                                     bom_Component_Part_Number := p;
                                     bom_Component_Qty_Required := Component_Qty_Required s |}
                 | None => None
                 end) df_struct.

Definition filtered_df_main (self : ProcessingWorker) (db : database)
    (sorting : option strategy) : list order_row :=
  let labor_standards := groupby_sum (df_hours db) in
  let filtered :=
    List.filter (filter_mask self) (df_main db) in
  let with_hours :=
    map (fun r => {| row := r;
                     Hours_Calc := dict_get labor_standards (Part r) * Demand r |})
      filtered in
  apply_sorting sorting with_hours.

Definition process_single_scenario (self : ProcessingWorker) (db : database)
    (scenario_name : string) (scenario_num total_scenarios : Z)
    (sorting : option strategy) : list progress * (error + scenario) :=
  let strategy_name := match sorting with Some s => name s | None => "Default" end in
  let loading := [Msg_loading scenario_num total_scenarios strategy_name] in
  let missing_columns :=
    List.filter (fun col => negb (isin (df_main_columns db) col)) required_columns in
  match missing_columns with
  | _ :: _ => (loading, inl (Missing_required_columns missing_columns))
  | [] =>
      let commitments := [Msg_commitments scenario_num total_scenarios strategy_name] in
      let stock := build_stock_dictionary (df_ipis db) in
      let committed_components :=
        match df_component_demand db with
        | [] => ∅
        | _ => groupby_sum (df_component_demand db)
        end in
      let used_components := committed_components in
      let labor_standards := groupby_sum (df_hours db) in
      let structures := [Msg_structures scenario_num total_scenarios strategy_name] in
      let planned_demand := planned_demand_of (df_struct db) in
      let total_original := len (df_main db) in
      let total_filtered := len (List.filter (filter_mask self) (df_main db)) in
      let filtered :=
        [Msg_filtered scenario_num total_scenarios strategy_name
           total_filtered total_original (total_original - total_filtered)] in
      let orders := filtered_df_main self db sorting in
      let run :=
        process_orders stock labor_standards planned_demand (df_pos db) (now db)
          scenario_num total_scenarios strategy_name
          0 (len orders) used_components orders in
      let results := loop_results run in
      (loading ++ commitments ++ structures ++ filtered ++ loop_messages run,
       inr {| scenario_name := scenario_name;
              sorting_strategy := match sorting with
                                  | Some s => name s
                                  | None => "Default (Start Date)"
                                  end;
              results_df := results;
              scenario_metrics := summary_metrics results committed_components |})
  end.

(** The min/max branch of [run]: one run per strategy, then the three
    winners. *)
Fixpoint run_strategies (self : ProcessingWorker) (db : database)
    (scenario_num total_scenarios : Z) (strategies : list strategy)
  : list progress * (error + list scenario) :=
  match strategies with
  | [] => ([], inr [])
  | s :: strategies' =>
      let scenario_num := scenario_num + 1 in
      let run := process_single_scenario self db
                   ("Database_" ++ scenario_suffix (name s))
                   scenario_num total_scenarios (Some s) in
      match run.2 with
      | inl e => (run.1, inl e)
      | inr scenario_result =>
          let metrics := scenario_metrics scenario_result in
          let remaining_scenarios := total_scenarios - scenario_num in
          let completed :=
            Msg_strategy_done scenario_num total_scenarios (name s)
              (releasable_count metrics) (total_orders metrics)
              (0 <? remaining_scenarios) in
          let rest := run_strategies self db scenario_num total_scenarios
                        strategies' in
          (run.1 ++ completed :: rest.1,
           match rest.2 with
           | inl e => inl e
           | inr results => inr (scenario_result :: results)
           end)
      end
  end.

Definition find_best (all_results : list scenario) : error + optimisation :=
  match py_max (fun s => releasable_count (scenario_metrics s)) all_results,
        py_max (fun s => releasable_hours (scenario_metrics s)) all_results,
        py_max (fun s => releasable_qty (scenario_metrics s)) all_results with
  | Some bo, Some bh, Some bq =>
      inr {| all_strategy_results := all_results;
             best_orders_strategy := bo;
             best_hours_strategy := bh;
             best_qty_strategy := bq |}
  | _, _, _ => inl Max_of_empty_sequence
  end.

Definition optimized_message (opt : optimisation) : progress :=
  Msg_optimized
    (sorting_strategy (best_orders_strategy opt))
    (releasable_count (scenario_metrics (best_orders_strategy opt)))
    (sorting_strategy (best_hours_strategy opt))
    (releasable_hours (scenario_metrics (best_hours_strategy opt)))
    (sorting_strategy (best_qty_strategy opt))
    (releasable_qty (scenario_metrics (best_qty_strategy opt))).

Definition run (self : ProcessingWorker) (db : database)
  : list progress * (error + optimisation) :=
  let strategies := get_sorting_strategies in
  let total_scenarios := len strategies in
  let started := Msg_minmax_mode (len strategies) total_scenarios in
  let runs := run_strategies self db 0 total_scenarios strategies in
  match runs.2 with
  | inl e => (started :: runs.1, inl e)
  | inr all_strategy_results =>
      match find_best all_strategy_results with
      | inl e => (started :: runs.1, inl e)
      | inr opt => (started :: runs.1 ++ [optimized_message opt], inr opt)
      end
  end.

End Qt6.


(** ** Notions the properties are stated with *)

(** The Ledger value of a part: stock minus what is already used. *)
Definition ledger (stock used_components : gmap string Z) (p : string) : Z :=
  dict_get stock p - dict_get used_components p.

(** The quantity of part [p] a BOM line asks for. *)
Definition line_qty (p : string) (b : bom_row) : Z :=
  if String.eqb (bom_Component_Part_Number b) p then
    match required_qty_of (bom_Component_Qty_Required b) with
    | inr q => q
    | inl _ => 0
    end
  else 0.

(** The quantity of part [p] a committed requirement decrements. *)
Definition req_qty (p : string) (req : requirement) : Z :=
  if String.eqb (req_part req) p then req_required req else 0.

(** A BOM line passes the feasibility check against a given Ledger. *)
Definition line_passes (stock used_components : gmap string Z) (b : bom_row) : Prop :=
  match required_qty_of (bom_Component_Qty_Required b) with
  | inr q => q <= ledger stock used_components (bom_Component_Part_Number b)
  | inl _ => False
  end.

(** An order the loop skips before it touches the Ledger. *)
Definition is_skipped (r : order_row) : bool :=
  String.eqb (Part (row r)) "nan" || (Demand (row r) <=? 0).

(** The quantity of part [p] an order asks for: the lines of its BOM, or
    its own demand when it has no BOM. *)
Definition order_requirement (planned_demand : list bom_row) (p : string)
    (r : order_row) : Z :=
  match SQL.bom_of planned_demand (SO_Number (row r)) with
  | [] => if String.eqb (Part (row r)) p then Demand (row r) else 0
  | bom => sumZ (map (line_qty p) bom)
  end.


(** The first and the second sort key of a strategy. *)
Definition primary_compare (s : strategy) : order_row -> order_row -> comparison :=
  match columns s, ascending s with
  | c :: _, a :: _ => column_compare c a
  | _, _ => fun _ _ => Eq
  end.

Definition is_start_date (c : column) : bool :=
  match c with Col_Start_Date => true | _ => false end.

Definition primary_is_start_date (s : strategy) : bool :=
  match columns s with
  | c :: _ => is_start_date c
  | [] => false
  end.

(** In the order a strategy produces, rows that tie on the primary key
    are in the order of [tie]. *)
Definition ties_broken_by (tie : order_row -> order_row -> comparison)
    (s : strategy) : Prop :=
  forall df l1 x l2 y l3,
    SQL.apply_sorting (Some s) df = l1 ++ x :: l2 ++ y :: l3 ->
    primary_compare s x y = Eq ->
    tie x y <> Gt.


(** The required columns the demand table lacks. *)
Definition missing_columns (db : database) : list string :=
  List.filter (fun col => negb (isin (df_main_columns db) col)) SQL.required_columns.


(** ** Order numbers *)

(** [normalize_so_number], over ASCII text, which order numbers are. *)

(** The characters [str.strip()] removes: tab, line feed, vertical tab, form
    feed, carriage return, the four separators 0x1c-0x1f and the space. *)
Definition is_space (c : ascii) : bool :=
  let n := nat_of_ascii c in
  ((9 <=? n) && (n <=? 13) || (28 <=? n) && (n <=? 32))%nat.

Fixpoint lstrip (s : string) : string :=
  match s with
  | EmptyString => EmptyString
  | String c s' => if is_space c then lstrip s' else s
  end.

Fixpoint rstrip (s : string) : string :=
  match s with
  | EmptyString => EmptyString
  | String c s' =>
      match rstrip s' with
      | EmptyString => if is_space c then EmptyString else String c EmptyString
      | t => String c t
      end
  end.

(** [s.strip()] *)
Definition py_strip (s : string) : string := rstrip (lstrip s).

(** [s.endswith(suffix)] *)
Fixpoint endswith (suffix s : string) : bool :=
  if String.eqb s suffix then true
  else match s with
       | EmptyString => false
       | String _ s' => endswith suffix s'
       end.

(** [s.replace('.0', '')]: every occurrence, left to right, without
    overlap. *)
Fixpoint remove_dot0 (s : string) : string :=
  match s with
  | EmptyString => EmptyString
  | String c s' =>
      match s' with
      | String c' s'' =>
          if Ascii.eqb c "."%char && Ascii.eqb c' "0"%char then remove_dot0 s''
          else String c (remove_dot0 s')
      | EmptyString => String c EmptyString
      end
  end.

Definition is_digit (c : ascii) : bool :=
  let n := nat_of_ascii c in ((48 <=? n) && (n <=? 57))%nat.

Fixpoint all_digits (s : string) : bool :=
  match s with
  | EmptyString => true
  | String c s' => is_digit c && all_digits s'
  end.

(** [s.isdigit()]: at least one character, and digits only. *)
Definition isdigit (s : string) : bool :=
  match s with
  | EmptyString => false
  | _ => all_digits s
  end.

(** [normalize_so_number(so_val)]; [None] is a missing value
    ([pd.isna]) and [Some s] a value whose [str()] is [s]. *)
Definition normalize_so_number (so_val : option string) : string :=
  match so_val with
  | None => EmptyString
  | Some s =>
      let so_str := py_strip s in
      if endswith ".0" so_str && isdigit (remove_dot0 so_str)
      then remove_dot0 so_str
      else so_str
  end.

(** A string that does not start with a character [strip] removes. *)
Definition no_leading_space (s : string) : Prop :=
  match s with
  | EmptyString => True
  | String c _ => is_space c = false
  end.

(** ** Further notions *)

(** The feasibility check of a BOM line, as a boolean. *)
Definition line_passesb (stock used_components : gmap string Z) (b : bom_row) : bool :=
  match required_qty_of (bom_Component_Qty_Required b) with
  | inr q => q <=? ledger stock used_components (bom_Component_Part_Number b)
  | inl _ => false
  end.

(** The quantity of the last line of a BOM that names part [p] and whose
    quantity parses. *)
Definition last_line_qty (p : string) (bom : list bom_row) : option Z :=
  fold_left
    (fun acc b =>
       if String.eqb (bom_Component_Part_Number b) p then
         match required_qty_of (bom_Component_Qty_Required b) with
         | inr q => Some q
         | inl _ => acc
         end
       else acc)
    bom None.

(** No line of the planned-demand table asks for a negative quantity. *)
Definition nonnegative_quantities (planned_demand : list bom_row) : Prop :=
  Forall (fun b => match required_qty_of (bom_Component_Qty_Required b) with
                   | inr q => 0 <= q
                   | inl _ => True
                   end) planned_demand.

(** The purchase-order table is in ascending order of promised date, as
    [load_pos_data] orders it. *)
Definition dates_ascending (df_pos : list po_row) : Prop :=
  StronglySorted
    (fun a b => forall x y, Promised_Due_Date a = Some x ->
                            Promised_Due_Date b = Some y -> x <= y)
    df_pos.

(** A purchase order of the part that is promised at or after the clock. *)
Definition is_future_record (now : Z) (part : string) (po : po_row) : Prop :=
  Part_Number po = part
  /\ exists d, Promised_Due_Date po = Some d /\ now <= d.

(** Two rows agree on every sort key. *)
Definition same_keys (cols : list column) (ascs : list bool) (x z : order_row) : bool :=
  match sort_key_compare cols ascs x z with Eq => true | _ => false end.




(** What a result copies from its demand row. *)
Definition result_key (res : result) : string * string * option Z * Z :=
  (res_SO_Number res, res_Planner res, res_Start_Date res, res_Demand res).

Definition demand_key (r : demand_row) : string * string * option Z * Z :=
  (SO_Number r, Planner r, Start_Date r, Z.max 0 (Demand r)).


(** The metrics of a group without orders. *)
Definition empty_group : group_metrics :=
  {| total_count := 0; total_hours_g := 0; total_qty_g := 0;
     releasable_count_g := 0; releasable_hours_g := 0; releasable_qty_g := 0 |}.

(** ** Dictionaries and sums *)

Lemma dict_get_insert (d : gmap string Z) (k p : string) (v : Z) :
  dict_get (<[k := v]> d) p = if String.eqb k p then v else dict_get d p.
Proof.
  unfold dict_get. destruct (String.eqb_spec k p) as [->|Hne].
  - by rewrite lookup_insert_eq.
  - by rewrite lookup_insert_ne.
Qed.

Lemma sumZ_app (l1 l2 : list Z) : sumZ (l1 ++ l2) = sumZ l1 + sumZ l2.
Proof. induction l1 as [|x l1 IH]; simpl; [done | rewrite IH; lia]. Qed.

(** ** The two phases of a BOM order *)

Section Phases.
Variable stock : gmap string Z.
Variable df_pos : list po_row.
Variable now : Z.

Abbreviation check := (SQL.check_component stock df_pos now).

(** The commit loop decrements each part by the sum of its lines. *)
Lemma allocate_components_get (reqs : list requirement) (used : gmap string Z) (p : string) :
  dict_get (SQL.allocate_components reqs used) p
  = dict_get used p + sumZ (map (req_qty p) reqs).
Proof.
  unfold SQL.allocate_components. revert used.
  induction reqs as [|req reqs IH]; intros used; simpl; [lia|].
  rewrite IH, dict_get_insert. unfold req_qty at 2.
  destruct (String.eqb_spec (req_part req) p) as [->|]; lia.
Qed.

(** One line of the check adds to [component_requirements] exactly what
    the line asks for; an unparseable line adds nothing. *)
Lemma check_component_requirements used st comp p :
  sumZ (map (req_qty p) (component_requirements (check used st comp)))
  = sumZ (map (req_qty p) (component_requirements st)) + line_qty p comp.
Proof.
  unfold SQL.check_component, line_qty.
  destruct (required_qty_of (bom_Component_Qty_Required comp)) as [e|q]; simpl.
  - destruct (String.eqb _ p); lia.
  - destruct (q <=? _); simpl;
      rewrite map_app, sumZ_app; simpl; unfold req_qty at 2; simpl;
      destruct (String.eqb _ p); lia.
Qed.

Lemma check_fold_requirements used bom st p :
  sumZ (map (req_qty p) (component_requirements (fold_left (check used) bom st)))
  = sumZ (map (req_qty p) (component_requirements st)) + sumZ (map (line_qty p) bom).
Proof.
  revert st. induction bom as [|comp bom IH]; intros st; simpl; [lia|].
  rewrite IH, check_component_requirements. lia.
Qed.

(** The flag [all_components_available] survives a line exactly when the
    line passes against the Ledger the order started from. *)
Lemma check_component_available used st comp :
  all_components_available (check used st comp) = true
  <-> all_components_available st = true /\ line_passes stock used comp.
Proof.
  unfold SQL.check_component, line_passes, ledger.
  destruct (required_qty_of (bom_Component_Qty_Required comp)) as [e|q]; simpl.
  - split; [discriminate | tauto].
  - destruct (Z.leb_spec q
      (dict_get stock (bom_Component_Part_Number comp)
       - dict_get used (bom_Component_Part_Number comp))); simpl.
    + tauto.
    + split; [discriminate | lia].
Qed.

Lemma check_fold_available used bom st :
  all_components_available (fold_left (check used) bom st) = true
  <-> all_components_available st = true /\ Forall (line_passes stock used) bom.
Proof.
  revert st. induction bom as [|comp bom IH]; intros st; simpl.
  - split; [intros H; split; [done | constructor] | tauto].
  - rewrite IH, check_component_available, Forall_cons. tauto.
Qed.

End Phases.

(** ** One iteration of the order loop *)

Section Step.
Variable stock labor_standards : gmap string Z.
Variable planned_demand : list bom_row.
Variable df_pos : list po_row.
Variable now : Z.

Abbreviation step := (SQL.process_order stock labor_standards planned_demand df_pos now).
Abbreviation check := (SQL.check_component stock df_pos now).

Lemma skip_test (r : order_row) :
  String.eqb (Part (row r)) "nan"
  || ((if 0 <? Demand (row r) then Demand (row r) else 0) <=? 0)
  = is_skipped r.
Proof.
  unfold is_skipped. f_equal.
  destruct (Z.ltb_spec 0 (Demand (row r))); [done|].
  symmetry. apply Z.leb_le. lia.
Qed.

Lemma demand_qty_of_processed (r : order_row) :
  is_skipped r = false ->
  (if 0 <? Demand (row r) then Demand (row r) else 0) = Demand (row r).
Proof.
  unfold is_skipped. intros H. apply orb_false_iff in H as [_ H].
  apply Z.leb_gt in H. destruct (Z.ltb_spec 0 (Demand (row r))); lia.
Qed.

Lemma process_order_skipped used r :
  is_skipped r = true ->
  res_Status (step used r).1 = Skipped /\ (step used r).2 = used.
Proof.
  intros Hs. unfold SQL.process_order. rewrite skip_test, Hs. done.
Qed.

Lemma process_order_bom used r b bom :
  is_skipped r = false ->
  SQL.bom_of planned_demand (SO_Number (row r)) = b :: bom ->
  let st := fold_left (check used) (b :: bom) empty_check in
  res_Status (step used r).1
    = (if all_components_available st then Release else Hold)
  /\ (step used r).2
    = (if all_components_available st
       then SQL.allocate_components (component_requirements st) used else used)
  /\ res_shortage_details (step used r).1 = shortage_details st.
Proof.
  intros Hs Hb st. unfold SQL.process_order.
  rewrite skip_test, Hs, Hb. done.
Qed.

Lemma process_order_raw used r :
  is_skipped r = false ->
  SQL.bom_of planned_demand (SO_Number (row r)) = [] ->
  let part := Part (row r) in
  let demand := Demand (row r) in
  let have := ledger stock used part in
  if demand <=? have then
    res_Status (step used r).1 = Release
    /\ (step used r).2 = <[part := dict_get used part + demand]> used
    /\ res_shortage_details (step used r).1 = []
  else
    res_Status (step used r).1 = Hold
    /\ (step used r).2 = used
    /\ res_shortage_details (step used r).1
       = [ShortNeed part demand have (Z.abs (have - demand))].
Proof.
  intros Hs Hb part demand have. unfold SQL.process_order.
  rewrite skip_test, Hs, Hb, (demand_qty_of_processed r Hs).
  fold part demand. unfold ledger in have. fold have.
  destruct (demand <=? have); done.
Qed.

(** What one order takes from the Ledger is what it asks for when it is
    Released, and nothing otherwise. *)
Lemma process_order_conserves used r p :
  (if bool_decide (res_Status (step used r).1 = Release)
   then order_requirement planned_demand p r else 0)
  + ledger stock (step used r).2 p
  = ledger stock used p.
Proof.
  destruct (is_skipped r) eqn:Hs.
  - destruct (process_order_skipped used r Hs) as [-> ->]. done.
  - unfold order_requirement.
    destruct (SQL.bom_of planned_demand (SO_Number (row r))) as [|b bom] eqn:Hb.
    + pose proof (process_order_raw used r Hs Hb) as H. simpl in H.
      destruct (Demand (row r) <=? ledger stock used (Part (row r)));
        destruct H as (-> & -> & _); simpl; [|done].
      unfold ledger. rewrite dict_get_insert.
      destruct (String.eqb_spec (Part (row r)) p) as [->|]; lia.
    + destruct (process_order_bom used r b bom Hs Hb) as (-> & -> & _).
      destruct (all_components_available _) eqn:Ha; [|done].
      rewrite (bool_decide_eq_true_2 _ eq_refl).
      unfold ledger. rewrite allocate_components_get.
      rewrite (check_fold_requirements stock df_pos now used (b :: bom) empty_check p).
      change (sumZ (map (req_qty p) (component_requirements empty_check))) with 0.
      lia.
Qed.

End Step.

(** ** The duplicated loop is the same loop *)

Lemma Qt6_process_order_eq : Qt6.process_order = SQL.process_order.
Proof. reflexivity. Qed.

(** The loop of the worker thread and the loop with a callback differ in
    the messages only, and not even there when a callback is given. *)
Lemma Qt6_process_orders_results stock labor_standards planned_demand df_pos now
    status_callback scenario_num total_scenarios strategy_name
    processed total used orders :
  loop_results
    (Qt6.process_orders stock labor_standards planned_demand df_pos now
       scenario_num total_scenarios strategy_name processed total used orders)
  = loop_results
      (SQL.process_orders stock labor_standards planned_demand df_pos now
         status_callback scenario_num total_scenarios strategy_name
         processed total used orders)
  /\ loop_used_components
       (Qt6.process_orders stock labor_standards planned_demand df_pos now
          scenario_num total_scenarios strategy_name processed total used orders)
     = loop_used_components
         (SQL.process_orders stock labor_standards planned_demand df_pos now
            status_callback scenario_num total_scenarios strategy_name
            processed total used orders).
Proof.
  revert processed used.
  induction orders as [|r orders IH]; intros processed used; simpl; [done|].
  rewrite Qt6_process_order_eq.
  destruct (IH (processed + 1)
              (SQL.process_order stock labor_standards planned_demand df_pos now
                 used r).2) as [-> ->].
  done.
Qed.

Lemma Qt6_process_orders_messages stock labor_standards planned_demand df_pos now
    scenario_num total_scenarios strategy_name processed total used orders :
  loop_messages
    (Qt6.process_orders stock labor_standards planned_demand df_pos now
       scenario_num total_scenarios strategy_name processed total used orders)
  = loop_messages
      (SQL.process_orders stock labor_standards planned_demand df_pos now
         true scenario_num total_scenarios strategy_name
         processed total used orders).
Proof.
  revert processed used.
  induction orders as [|r orders IH]; intros processed used; simpl; [done|].
  rewrite Qt6_process_order_eq, IH. done.
Qed.

(** ** Atomicity *)

(** C1: an order processed with an explicit BOM, in either copy of the
    loop.  If its result is Hold, the Ledger value of every part is the
    same after the order as before it.  The Ledger changes only if every
    line of the BOM passed the feasibility check made against the Ledger
    the order started from; and when every line passed, the order is
    Released and every part is decremented by the quantities of its
    lines. *)
Theorem bom_order_all_or_nothing :
  forall step,
    In step [SQL.process_order; Qt6.process_order] ->
    forall stock labor_standards planned_demand df_pos now used r,
      is_skipped r = false ->
      SQL.bom_of planned_demand (SO_Number (row r)) <> [] ->
      let bom := SQL.bom_of planned_demand (SO_Number (row r)) in
      let res := (step stock labor_standards planned_demand df_pos now used r).1 in
      let used' := (step stock labor_standards planned_demand df_pos now used r).2 in
      (res_Status res = Hold ->
       forall p, ledger stock used' p = ledger stock used p)
      /\ ((exists p, ledger stock used' p <> ledger stock used p) ->
          Forall (line_passes stock used) bom)
      /\ (Forall (line_passes stock used) bom ->
          res_Status res = Release
          /\ forall p, ledger stock used' p
                       = ledger stock used p - sumZ (map (line_qty p) bom)).
Proof.
  intros step Hstep stock labor pd pos now used r Hs Hb bom res used'.
  assert (step = SQL.process_order) as ->.
  { destruct Hstep as [<-|[<-|[]]]; reflexivity. }
  subst res used'. subst bom.
  destruct (SQL.bom_of pd (SO_Number (row r))) as [|b bom] eqn:Hbom; [done|].
  destruct (process_order_bom stock labor pd pos now used r b bom Hs Hbom)
    as (-> & -> & _).
  pose proof (check_fold_available stock pos now used (b :: bom) empty_check) as Hav.
  destruct (all_components_available _) eqn:Ha.
  - assert (Forall (line_passes stock used) (b :: bom)) as Hall by (by apply Hav).
    split; [discriminate|]. split; [done|]. intros _. split; [done|].
    intros p. unfold ledger. rewrite allocate_components_get.
    rewrite (check_fold_requirements stock pos now used (b :: bom) empty_check p).
    change (sumZ (map (req_qty p) (component_requirements empty_check))) with 0.
    lia.
  - split; [done|]. split.
    + intros [p Hp]. done.
    + intros Hall. assert (false = true) by (apply Hav; done). done.
Qed.

(** The scenario of the specification: Ledger {X:2, Y:10}, order O1
    needs {X:3, Y:1}; it is held and the Ledger is untouched. *)
Lemma bom_order_all_or_nothing_witness :
  let stock : gmap string Z := {[ "X" := 2; "Y" := 10 ]} in
  let planned_demand :=
    [ {| bom_SO_Number := "O1"; bom_Component_Part_Number := "X";
         bom_Component_Qty_Required := QtyNum 3 |};
      {| bom_SO_Number := "O1"; bom_Component_Part_Number := "Y";
         bom_Component_Qty_Required := QtyNum 1 |} ] in
  let r := {| row := {| SO_Number := "O1"; Part := "KIT"; Planner := "3001";
                        Start_Date := Some 1; Demand := 1 |};
              Hours_Calc := 0 |} in
  res_Status (SQL.process_order stock ∅ planned_demand [] 0 ∅ r).1 = Hold
  /\ forall p, ledger stock (SQL.process_order stock ∅ planned_demand [] 0 ∅ r).2 p
               = ledger stock ∅ p.
Proof.
  intros stock planned_demand r.
  split; [reflexivity|].
  apply (bom_order_all_or_nothing SQL.process_order (or_introl eq_refl)
           stock ∅ planned_demand [] 0 ∅ r eq_refl).
  - discriminate.
  - reflexivity.
Defined.

(** ** Conservation *)


(** ** Shortfall arithmetic *)

(** C8: a BOM line whose parsed quantity [q] exceeds the signed value
    [have = stock - used] fails the check, and the shortage it reports is
    [q - have] computed from that signed value (together with [have]
    itself when no purchase order covers it); nothing is clamped at zero.
    The implicit requirement of an order without BOM is compared and
    reported in the same way. *)
Theorem shortfall_is_signed :
  forall stock labor_standards planned_demand df_pos now used st comp q r,
    required_qty_of (bom_Component_Qty_Required comp) = inr q ->
    let part := bom_Component_Part_Number comp in
    let have := dict_get stock part - dict_get used part in
    have < q ->
    let st' := SQL.check_component stock df_pos now used st comp in
    (all_components_available st' = false
     /\ shortage_details st'
        = shortage_details st ++
            [match SQL.po_match df_pos now part (q - have) with
             | Some po => ShortPO part (q - have) po
             | None => ShortNeed part q have (q - have)
             end])
    /\ (is_skipped r = false ->
        SQL.bom_of planned_demand (SO_Number (row r)) = [] ->
        let own := dict_get stock (Part (row r)) - dict_get used (Part (row r)) in
        let res := (SQL.process_order stock labor_standards planned_demand
                      df_pos now used r).1 in
        (res_Status res = Release <-> Demand (row r) <= own)
        /\ (own < Demand (row r) ->
            res_shortage_details res
            = [ShortNeed (Part (row r)) (Demand (row r)) own (Demand (row r) - own)])).
Proof.
  intros stock labor pd pos now used st comp q r Hq part have Hlt st'.
  split.
  - subst st'. unfold SQL.check_component. rewrite Hq. fold part. fold have.
    destruct (Z.leb_spec q have); [lia|]. simpl.
    replace (Z.abs (have - q)) with (q - have) by lia. done.
  - intros Hs Hb own res.
    pose proof (process_order_raw stock labor pd pos now used r Hs Hb) as H.
    simpl in H. unfold ledger in H. fold own in H. fold res in H.
    destruct (Z.leb_spec (Demand (row r)) own) as [Hle|Hgt].
    + destruct H as (-> & _ & _). split; [tauto | lia].
    + destruct H as (-> & _ & ->). split.
      * split; [discriminate | lia].
      * intros _. replace (Z.abs (own - Demand (row r))) with (Demand (row r) - own) by lia.
        done.
Qed.

(** Stock 2 with 5 already committed: the signed value is -3, and a line
    asking for 4 is short by 7, not by 4. *)
Lemma shortfall_is_signed_witness :
  let stock : gmap string Z := {[ "A" := 2 ]} in
  let used : gmap string Z := {[ "A" := 5 ]} in
  let comp := {| bom_SO_Number := "O1"; bom_Component_Part_Number := "A";
                 bom_Component_Qty_Required := QtyNum 4 |} in
  shortage_details (SQL.check_component stock [] 0 used empty_check comp)
  = [ShortNeed "A" 4 (-3) 7].
Proof.
  intros stock used comp.
  pose (r := {| row := {| SO_Number := "O2"; Part := "A"; Planner := "3001";
                          Start_Date := None; Demand := 4 |};
                Hours_Calc := 0 |}).
  exact (proj2 (proj1 (shortfall_is_signed stock ∅ [] [] 0 used empty_check comp 4 r
                         eq_refl ltac:(vm_compute; reflexivity)))).
Defined.

(** ** Non-negative Ledger *)

(** C3, at the failing input: Ledger {A:5}; the BOM of order O1 names
    part A on two lines of 3.  Each line passes against 5, the order is
    Released, and the commit takes 6: the Ledger value of A goes from 5
    to -1. *)
Theorem duplicate_lines_overdraw :
  let stock : gmap string Z := {[ "A" := 5 ]} in
  let planned_demand :=
    [ {| bom_SO_Number := "O1"; bom_Component_Part_Number := "A";
         bom_Component_Qty_Required := QtyNum 3 |};
      {| bom_SO_Number := "O1"; bom_Component_Part_Number := "A";
         bom_Component_Qty_Required := QtyNum 3 |} ] in
  let r := {| row := {| SO_Number := "O1"; Part := "KIT"; Planner := "3001";
                        Start_Date := Some 1; Demand := 1 |};
              Hours_Calc := 0 |} in
  let out := SQL.process_order stock ∅ planned_demand [] 0 ∅ r in
  0 <= ledger stock ∅ "A"
  /\ res_Status out.1 = Release
  /\ ledger stock out.2 "A" = -1.
Proof. vm_compute. repeat split; discriminate. Qed.

(** ** Shortage resolution *)

(** The scan returns the first future record, in the order of the
    purchase-order table, whose quantity covers the shortage; every record
    of the part before it is in the past, undated, or too small. *)
Lemma po_match_first_fit df_pos now part shortage po :
  SQL.po_match df_pos now part shortage = Some po ->
  exists before after,
    SQL.future_pos df_pos now part = before ++ po :: after
    /\ shortage <= Qty_Due po
    /\ Forall (fun po' => Qty_Due po' < shortage) before.
Proof.
  unfold SQL.po_match.
  induction (SQL.future_pos df_pos now part) as [|x l IH]; simpl; [done|].
  destruct (Z.leb_spec shortage (Qty_Due x)) as [Hle|Hgt].
  - intros [= <-]. exists [], l. repeat split; [done | constructor].
  - intros H. destruct (IH H) as (before & after & -> & Hq & Hb).
    exists (x :: before), after. repeat split; [done | by constructor].
Qed.

Lemma po_match_none df_pos now part shortage :
  SQL.po_match df_pos now part shortage = None ->
  Forall (fun po' => Qty_Due po' < shortage) (SQL.future_pos df_pos now part).
Proof.
  unfold SQL.po_match.
  induction (SQL.future_pos df_pos now part) as [|x l IH]; simpl; [constructor|].
  destruct (Z.leb_spec shortage (Qty_Due x)) as [Hle|Hgt]; [done|].
  intros H. constructor; [done | by apply IH].
Qed.

(** C4, at the failing input: part A has no stock and the purchase orders
    are [3 due day 10; 5 due day 20; 9 due on a past day].  For a BOM line
    short of 5 the scan returns the day-20 record.  An order for 5 of
    part A without BOM is held for the same shortfall of 5, but its
    shortage entry carries no purchase order: that path never scans the
    table. *)
Theorem no_bom_shortage_skips_po_scan :
  let po10 := {| PO_Number := "P10"; Part_Number := "A"; Qty_Due := 3;
                 Promised_Due_Date := Some 10 |} in
  let po20 := {| PO_Number := "P20"; Part_Number := "A"; Qty_Due := 5;
                 Promised_Due_Date := Some 20 |} in
  let past := {| PO_Number := "P0"; Part_Number := "A"; Qty_Due := 9;
                 Promised_Due_Date := Some (-5) |} in
  let df_pos := [po10; po20; past] in
  let kit := {| row := {| SO_Number := "O1"; Part := "KIT"; Planner := "3001";
                          Start_Date := Some 1; Demand := 1 |};
                Hours_Calc := 0 |} in
  let raw := {| row := {| SO_Number := "O2"; Part := "A"; Planner := "3001";
                          Start_Date := Some 1; Demand := 5 |};
                Hours_Calc := 0 |} in
  let planned_demand :=
    [ {| bom_SO_Number := "O1"; bom_Component_Part_Number := "A";
         bom_Component_Qty_Required := QtyNum 5 |} ] in
  SQL.po_match df_pos 0 "A" 5 = Some po20
  /\ res_shortage_details (SQL.process_order ∅ ∅ planned_demand df_pos 0 ∅ kit).1
     = [ShortPO "A" 5 po20]
  /\ res_Status (SQL.process_order ∅ ∅ planned_demand df_pos 0 ∅ raw).1 = Hold
  /\ res_shortage_details (SQL.process_order ∅ ∅ planned_demand df_pos 0 ∅ raw).1
     = [ShortNeed "A" 5 0 5].
Proof. vm_compute. repeat split. Qed.

(** ** Comparisons are total preorders *)

Section OrderLike.
Context {A : Type} (c : A -> A -> comparison) (Hc : order_like c).

Lemma ol_refl x : c x x = Eq.
Proof. pose proof (ol_antisym c Hc x x) as H. destruct (c x x); done. Qed.

Lemma ol_eq_sym x y : c x y = Eq -> c y x = Eq.
Proof. intros H. rewrite (ol_antisym c Hc x y), H. done. Qed.

Lemma ol_eq_r x y z : c x y = Eq -> c z x = c z y.
Proof.
  intros H. rewrite (ol_antisym c Hc x z), (ol_antisym c Hc y z).
  f_equal. by apply ol_eq_l.
Qed.

Lemma cmp_leb_total x y : cmp_leb c x y = false -> cmp_leb c y x = true.
Proof.
  unfold cmp_leb. rewrite (ol_antisym c Hc x y). destruct (c x y); done.
Qed.

Lemma cmp_leb_trans x y z :
  cmp_leb c x y = true -> cmp_leb c y z = true -> cmp_leb c x z = true.
Proof.
  unfold cmp_leb. destruct (c x y) eqn:Hxy; [| |done]; intros _.
  - by rewrite (ol_eq_l c Hc x y z Hxy).
  - destruct (c y z) eqn:Hyz; [| |done]; intros _.
    + by rewrite <- (ol_eq_r y z x Hyz), Hxy.
    + by rewrite (ol_lt_trans c Hc x y z Hxy Hyz).
Qed.

Lemma order_like_dir asc : order_like (cmp_dir asc c).
Proof.
  destruct asc; [by destruct Hc|]. unfold cmp_dir. split.
  - intros x y. apply (ol_antisym c Hc).
  - intros x y z Hxy Hyz. by apply (ol_lt_trans c Hc z y x).
  - intros x y z Hxy. by apply ol_eq_r, ol_eq_sym.
Qed.

Lemma order_like_na_last : order_like (cmp_na_last c).
Proof.
  split.
  - intros [x|] [y|]; simpl; try done. apply (ol_antisym c Hc).
  - intros [x|] [y|] [z|]; simpl; try done. apply (ol_lt_trans c Hc).
  - intros [x|] [y|] [z|]; simpl; try done. apply (ol_eq_l c Hc).
Qed.

Lemma order_like_on {B} (f : B -> A) : order_like (cmp_on f c).
Proof.
  unfold cmp_on. split.
  - intros x y. apply (ol_antisym c Hc).
  - intros x y z. apply (ol_lt_trans c Hc).
  - intros x y z. apply (ol_eq_l c Hc).
Qed.

Lemma order_like_lex (c2 : A -> A -> comparison) :
  order_like c2 -> order_like (cmp_lex c c2).
Proof.
  intros H2. unfold cmp_lex. split.
  - intros x y. rewrite (ol_antisym c Hc x y).
    destruct (c x y); simpl; try done. apply (ol_antisym c2 H2).
  - intros x y z.
    destruct (c x y) eqn:Hxy; try done.
    + rewrite (ol_eq_l c Hc x y z Hxy).
      destruct (c y z); try done. apply (ol_lt_trans c2 H2).
    + intros _. destruct (c y z) eqn:Hyz; try done; intros _.
      * by rewrite <- (ol_eq_r y z x Hyz), Hxy.
      * by rewrite (ol_lt_trans c Hc x y z Hxy Hyz).
  - intros x y z. destruct (c x y) eqn:Hxy; try done. intros H.
    rewrite (ol_eq_l c Hc x y z Hxy), (ol_eq_l c2 H2 x y z H). done.
Qed.

End OrderLike.

Lemma order_like_Z : order_like Z.compare.
Proof.
  split.
  - intros x y. apply Z.compare_antisym.
  - intros x y z. rewrite !Z.compare_lt_iff. lia.
  - intros x y z H. apply Z.compare_eq in H. by subst.
Qed.

Lemma string_compare_OT (s1 s2 : string) :
  String.compare s1 s2 = String_as_OT.compare s1 s2.
Proof.
  reflexivity.
Qed.

Lemma order_like_string : order_like String.compare.
Proof.
  split.
  - intros x y. apply String.compare_antisym.
  - intros x y z. rewrite !string_compare_OT.
    apply (@StrictOrder_Transitive _ _ String_as_OT.lt_strorder).
  - intros x y z H. apply String.compare_eq_iff in H. by subst.
Qed.

Lemma order_like_const {A} : order_like (fun _ _ : A => Eq).
Proof. by split. Qed.

Lemma order_like_column col asc : order_like (column_compare col asc).
Proof.
  destruct col; simpl; apply order_like_on;
    try apply order_like_na_last; apply order_like_dir;
    (apply order_like_Z || apply order_like_string).
Qed.

Lemma order_like_sort_key cols ascs : order_like (sort_key_compare cols ascs).
Proof.
  revert ascs. induction cols as [|col cols IH]; intros [|a ascs]; simpl;
    try apply order_like_const.
  apply order_like_lex; [apply order_like_column | apply IH].
Qed.

(** ** The sort *)

Section Sorted.
Context {A : Type} (leb : A -> A -> bool).
Hypothesis leb_total : forall x y, leb x y = false -> leb y x = true.
Hypothesis leb_trans : forall x y z, leb x y = true -> leb y z = true -> leb x z = true.

Abbreviation le := (fun x y => leb x y = true).

Lemma insert_sorted_elems x l y :
  In y (insert_sorted leb x l) -> y = x \/ In y l.
Proof.
  induction l as [|z l IH]; simpl.
  - intros [<-|[]]. by left.
  - destruct (leb x z); simpl.
    + intros [<-|[<-|H]]; auto.
    + intros [<-|H]; [auto|]. destruct (IH H); auto.
Qed.

Lemma insert_sorted_sorted x l :
  StronglySorted le l -> StronglySorted le (insert_sorted leb x l).
Proof.
  induction 1 as [|z l Hl IH Hz]; simpl.
  - repeat constructor.
  - pose proof Hz as Hz'. rewrite List.Forall_forall in Hz.
    destruct (leb x z) eqn:Hxz.
    + constructor; [by constructor|]. constructor; [done|].
      apply List.Forall_forall. intros y Hy.
      eapply leb_trans; [exact Hxz | by apply Hz].
    + constructor; [done|]. apply List.Forall_forall. intros y Hy.
      destruct (insert_sorted_elems _ _ _ Hy) as [->|Hin].
      * by apply leb_total.
      * by apply Hz.
Qed.

Lemma stable_sort_sorted l : StronglySorted le (stable_sort leb l).
Proof.
  induction l as [|x l IH]; simpl; [constructor | by apply insert_sorted_sorted].
Qed.

Lemma strongly_sorted_pair l1 x l2 y l3 :
  StronglySorted le (l1 ++ x :: l2 ++ y :: l3) -> leb x y = true.
Proof.
  induction l1 as [|z l1 IH]; simpl; intros H.
  - apply StronglySorted_inv in H as [_ H].
    rewrite List.Forall_forall in H. apply H.
    apply in_or_app. right. by left.
  - apply StronglySorted_inv in H as [H _]. by apply IH.
Qed.

End Sorted.

Lemma sort_values_sorted cols ascs df :
  StronglySorted (fun x y => cmp_leb (sort_key_compare cols ascs) x y = true)
    (sort_values cols ascs df).
Proof.
  apply stable_sort_sorted.
  - apply cmp_leb_total, order_like_sort_key.
  - apply cmp_leb_trans, order_like_sort_key.
Qed.

(** ** Tie-breaking within a strategy *)

Lemma apply_sorting_two_columns s c1 c2 a1 a2 df :
  columns s = [c1; c2] -> ascending s = [a1; a2] ->
  SQL.apply_sorting (Some s) df
  = sort_values [c1; c2] [a1; a2] (sort_values [c1; c2] [a1; a2] df).
Proof.
  intros Hc Ha. unfold SQL.apply_sorting. rewrite Hc, Ha. simpl.
  by destruct c1, c2.
Qed.

Lemma ties_follow_second_key s c1 c2 a1 a2 :
  columns s = [c1; c2] -> ascending s = [a1; a2] ->
  ties_broken_by (column_compare c2 a2) s.
Proof.
  intros Hc Ha df l1 x l2 y l3 Hsort Hprim.
  rewrite (apply_sorting_two_columns s c1 c2 a1 a2 df Hc Ha) in Hsort.
  pose proof (sort_values_sorted [c1; c2] [a1; a2]
                (sort_values [c1; c2] [a1; a2] df)) as Hs.
  rewrite Hsort in Hs. apply strongly_sorted_pair in Hs.
  unfold primary_compare in Hprim. rewrite Hc, Ha in Hprim.
  unfold cmp_leb in Hs. simpl in Hs. unfold cmp_lex in Hs. rewrite Hprim in Hs.
  intros Hgt. rewrite Hgt in Hs. done.
Qed.

(** C6, as the code has it: in every strategy of the candidate set, orders
    that compare equal on the primary key are in ascending order of the
    strategy's second sort column.  That column is the order id for the
    two "Start Date" strategies and the start date (missing dates last)
    for the other eight. *)
Theorem ties_follow_second_column :
  forall s,
    In s SQL.get_sorting_strategies ->
    ties_broken_by
      (column_compare
         (if primary_is_start_date s then Col_SO_Number else Col_Start_Date) true)
      s.
Proof.
  intros s Hin. unfold SQL.get_sorting_strategies in Hin. simpl in Hin.
  repeat (destruct Hin as [<-|Hin];
          [eapply ties_follow_second_key; reflexivity|]).
  destruct Hin.
Qed.

(** Two orders of demand 5 under "Demand (Small First)": O2, which starts
    on day 10, precedes O1, which starts on day 20. *)
Lemma ties_follow_second_column_witness :
  let s := {| name := "Demand (Small First)";
              columns := [Col_Demand; Col_Start_Date]; ascending := [true; true] |} in
  let o1 := {| row := {| SO_Number := "O1"; Part := "K"; Planner := "3001";
                         Start_Date := Some 20; Demand := 5 |}; Hours_Calc := 0 |} in
  let o2 := {| row := {| SO_Number := "O2"; Part := "K"; Planner := "3001";
                         Start_Date := Some 10; Demand := 5 |}; Hours_Calc := 0 |} in
  SQL.apply_sorting (Some s) [o1; o2] = [o2; o1]
  /\ column_compare Col_Start_Date true o2 o1 <> Gt.
Proof.
  intros s o1 o2. split; [reflexivity|].
  apply (ties_follow_second_column s
           (or_intror (or_intror (or_introl eq_refl))) [o1; o2] [] o2 [] o1 []);
    reflexivity.
Defined.

(** C6 as stated fails: under "Demand (Small First)" the two orders above
    tie on demand, and O2 comes before O1. *)
Lemma order_id_is_not_the_tie_break :
  ~ (forall s, In s SQL.get_sorting_strategies ->
               ties_broken_by (column_compare Col_SO_Number true) s).
Proof.
  intros H.
  pose (o1 := {| row := {| SO_Number := "O1"; Part := "K"; Planner := "3001";
                           Start_Date := Some 20; Demand := 5 |}; Hours_Calc := 0 |}).
  pose (o2 := {| row := {| SO_Number := "O2"; Part := "K"; Planner := "3001";
                           Start_Date := Some 10; Demand := 5 |}; Hours_Calc := 0 |}).
  apply (H _ (or_intror (or_intror (or_introl eq_refl))) [o1; o2] [] o2 [] o1 []);
    reflexivity.
Qed.

(** ** The strategy search *)










(** ** Error containment *)

Section Containment.
Variable stock labor_standards : gmap string Z.
Variable planned_demand : list bom_row.
Variable df_pos : list po_row.
Variable now : Z.

Abbreviation step := (SQL.process_order stock labor_standards planned_demand df_pos now).
Abbreviation check := (SQL.check_component stock df_pos now).







End Containment.



(** A run over two kit orders: the BOM of O1 has a line whose quantity is
    not a number.  O1 is held with the diagnostic, and O2, processed after
    it, is released. *)
Example unparseable_line_is_contained :
  let db := {| df_main_columns := ["SO No"; "Part No"; "Planner"; "Start Date"; "Rev Qty Due"];
               df_main := [ {| SO_Number := "O1"; Part := "K1"; Planner := "3001";
                               Start_Date := Some 1; Demand := 1 |};
                            {| SO_Number := "O2"; Part := "K2"; Planner := "3001";
                               Start_Date := Some 2; Demand := 1 |} ];
               df_struct := [ {| struct_SO_Number := "O1";
                                 Component_Part_Number := Some "A";
                                 Component_Qty_Required := QtyBad "invalid literal" |};
                              {| struct_SO_Number := "O2";
                                 Component_Part_Number := Some "A";
                                 Component_Qty_Required := QtyNum 2 |} ];
               df_component_demand := [];
               df_ipis := [("A", 5)]; df_hours := [];
               df_pos := []; now := 0 |} in
  match (SQL.process_single_scenario db "Database_Scenario" true 1 1 None
           true true true true).2 with
  | inr sc =>
      map (fun res => (res_SO_Number res, res_Status res, res_shortage_details res))
        (results_df sc)
      = [("O1", Hold, [ComponentError "invalid literal"]); ("O2", Release, [])]
  | inl _ => False
  end.
Proof. vm_compute. reflexivity. Qed.

(** ** Metrics *)

(** C9, at the failing input: a run whose only order has zero demand.  The
    order is Skipped, no result is held, and yet [held_count] is 1, because
    it is computed as [total_orders - releasable_count]; [held_hours] and
    [held_qty], which select the results whose status is Hold, are 0. *)
Theorem held_count_includes_skipped :
  let db := {| df_main_columns := ["SO No"; "Part No"; "Planner"; "Start Date"; "Rev Qty Due"];
               df_main := [ {| SO_Number := "O1"; Part := "A"; Planner := "3001";
                               Start_Date := Some 1; Demand := 0 |} ];
               df_struct := []; df_component_demand := [];
               df_ipis := [("A", 5)]; df_hours := [("A", 2)];
               df_pos := []; now := 0 |} in
  match (SQL.process_single_scenario db "Database_Scenario" true 1 1 None
           true true true true).2 with
  | inr sc =>
      map res_Status (results_df sc) = [Skipped]
      /\ SQL.len (SQL.with_status Hold (results_df sc)) = 0
      /\ held_count (scenario_metrics sc) = 1
      /\ skipped_count (scenario_metrics sc) = 1
      /\ releasable_count (scenario_metrics sc) = 0
      /\ total_orders (scenario_metrics sc) = 1
      /\ held_hours (scenario_metrics sc) = 0
      /\ held_qty (scenario_metrics sc) = 0
  | inl _ => False
  end.
Proof. vm_compute. repeat split. Qed.

(** ** The two copies of the engine *)

Lemma Qt6_filtered_df_main_eq (self : Qt6.ProcessingWorker) db sorting :
  Qt6.filtered_df_main self db sorting
  = SQL.filtered_df_main db sorting
      (Qt6.include_kits self) (Qt6.include_instruments self)
      (Qt6.include_virtuoso self) (Qt6.include_kit_samples self).
Proof. reflexivity. Qed.

(** C10: on the same input relations, the same sorting strategy and the
    same category flags, the loop of AMCBDG_SQL_Qt6.py returns what the
    loop of AMCBDG_SQL.py returns, whether or not the latter is given a
    status callback: the same error, or the same scenario with the same
    per-order results and the same metrics.  When the callback is given it
    receives the messages the worker thread emits. *)
Theorem engines_agree :
  forall (self : Qt6.ProcessingWorker) db scenario_name status_callback
         scenario_num total_scenarios sorting,
    let qt6 := Qt6.process_single_scenario self db scenario_name
                 scenario_num total_scenarios sorting in
    let sql := SQL.process_single_scenario db scenario_name status_callback
                 scenario_num total_scenarios sorting
                 (Qt6.include_kits self) (Qt6.include_instruments self)
                 (Qt6.include_virtuoso self) (Qt6.include_kit_samples self) in
    qt6.2 = sql.2
    /\ (status_callback = true -> qt6.1 = sql.1).
Proof.
  intros self db scenario_name cb n N sorting qt6 sql. subst qt6 sql.
  unfold Qt6.process_single_scenario, SQL.process_single_scenario.
  change Qt6.required_columns with SQL.required_columns.
  change Qt6.build_stock_dictionary with SQL.build_stock_dictionary.
  change Qt6.planned_demand_of with SQL.planned_demand_of.
  change Qt6.summary_metrics with SQL.summary_metrics.
  change (@Qt6.len) with (@SQL.len).
  change Qt6.filter_mask with
    (fun self => SQL.filter_mask (Qt6.include_kits self) (Qt6.include_instruments self)
                   (Qt6.include_virtuoso self) (Qt6.include_kit_samples self)).
  destruct (List.filter _ SQL.required_columns) as [|c cs].
  - cbv zeta. rewrite Qt6_filtered_df_main_eq.
    match goal with
    | |- context [Qt6.process_orders ?st ?lab ?pd ?pos ?nw ?n' ?N' ?sn ?p ?t ?u ?o] =>
        destruct (Qt6_process_orders_results st lab pd pos nw cb n' N' sn p t u o)
          as [Hres Hused];
        pose proof (Qt6_process_orders_messages st lab pd pos nw n' N' sn p t u o)
          as Hmsg
    end.
    split.
    + rewrite Hres. reflexivity.
    + intros ->. rewrite Hmsg. reflexivity.
  - split; [reflexivity|]. by intros ->.
Qed.

(** ** The Ledger stays non-negative when the lines name distinct parts *)

Lemma line_qty_absent p bom :
  ~ In p (map bom_Component_Part_Number bom) -> sumZ (map (line_qty p) bom) = 0.
Proof.
  induction bom as [|b bom IH]; simpl; [done|]. intros Hn.
  rewrite IH by tauto. unfold line_qty.
  destruct (String.eqb_spec (bom_Component_Part_Number b) p); [tauto | done].
Qed.

Lemma distinct_lines_within_ledger stock used bom p :
  List.NoDup (map bom_Component_Part_Number bom) ->
  Forall (line_passes stock used) bom ->
  0 <= ledger stock used p ->
  sumZ (map (line_qty p) bom) <= ledger stock used p.
Proof.
  induction bom as [|b bom IH]; simpl; intros Hnd Hall Hp; [done|].
  apply List.NoDup_cons_iff in Hnd as [Hb Hnd].
  apply Forall_cons in Hall as [Hpass Hall].
  unfold line_qty at 1.
  destruct (String.eqb_spec (bom_Component_Part_Number b) p) as [Heq|Hne].
  - rewrite line_qty_absent by (by rewrite <- Heq).
    unfold line_passes in Hpass. rewrite Heq in Hpass.
    destruct (required_qty_of _); [done | lia].
  - specialize (IH Hnd Hall Hp). lia.
Qed.

(** What C3 asks for holds as long as no part is named on two lines of
    the BOM (and always for an order without BOM). *)
Lemma released_keeps_ledger_nonnegative
    stock labor_standards planned_demand df_pos now used r p :
  List.NoDup (map bom_Component_Part_Number
                (SQL.bom_of planned_demand (SO_Number (row r)))) ->
  res_Status (SQL.process_order stock labor_standards planned_demand df_pos now used r).1
  = Release ->
  0 <= ledger stock used p ->
  0 <= ledger stock
         (SQL.process_order stock labor_standards planned_demand df_pos now used r).2 p.
Proof.
  intros Hnd Hrel Hp.
  destruct (is_skipped r) eqn:Hs.
  - destruct (process_order_skipped stock labor_standards planned_demand df_pos now
                used r Hs) as [Hst _].
    rewrite Hst in Hrel. done.
  - destruct (SQL.bom_of planned_demand (SO_Number (row r))) as [|b bom] eqn:Hb.
    + pose proof (process_order_raw stock labor_standards planned_demand df_pos now
                    used r Hs Hb) as H. simpl in H.
      destruct (Z.leb_spec (Demand (row r)) (ledger stock used (Part (row r))));
        destruct H as (Hst & -> & _); [|rewrite Hst in Hrel; done].
      unfold ledger in *. rewrite dict_get_insert.
      destruct (String.eqb_spec (Part (row r)) p) as [<-|]; lia.
    + destruct (process_order_bom stock labor_standards planned_demand df_pos now
                  used r b bom Hs Hb) as (Hst & -> & _).
      rewrite Hst in Hrel.
      destruct (all_components_available _) eqn:Ha; [|done].
      apply check_fold_available in Ha as [_ Hall].
      pose proof (distinct_lines_within_ledger stock used (b :: bom) p Hnd Hall Hp).
      unfold ledger in *. rewrite allocate_components_get.
      rewrite (check_fold_requirements stock df_pos now used (b :: bom) empty_check p).
      change (sumZ (map (req_qty p) (component_requirements empty_check))) with 0.
      lia.
Qed.

(** ** Scenarios of the specification *)

(** Ledger {A:10}; one order needs 4 of part A and has no BOM: it is
    Released and the Ledger is {A:6}. *)
Example single_raw_material_order :
  let stock : gmap string Z := {[ "A" := 10 ]} in
  let r := {| row := {| SO_Number := "O1"; Part := "A"; Planner := "3001";
                        Start_Date := Some 1; Demand := 4 |}; Hours_Calc := 0 |} in
  res_Status (SQL.process_order stock ∅ [] [] 0 ∅ r).1 = Release
  /\ ledger stock (SQL.process_order stock ∅ [] [] 0 ∅ r).2 "A" = 6.
Proof. vm_compute. by split. Qed.

(** Ledger {A:5}; two orders need 4 of part A each: whichever comes first
    is Released and the other is held. *)
Example ordering_sensitivity :
  let stock : gmap string Z := {[ "A" := 5 ]} in
  let o1 := {| row := {| SO_Number := "O1"; Part := "A"; Planner := "3001";
                         Start_Date := Some 1; Demand := 4 |}; Hours_Calc := 0 |} in
  let o2 := {| row := {| SO_Number := "O2"; Part := "A"; Planner := "3001";
                         Start_Date := Some 2; Demand := 4 |}; Hours_Calc := 0 |} in
  let run orders := SQL.process_orders stock ∅ [] [] 0 false 1 1 "Default" 0 2 ∅ orders in
  map res_Status (loop_results (run [o1; o2])) = [Release; Hold]
  /\ map res_SO_Number (loop_results (run [o1; o2])) = ["O1"; "O2"]
  /\ map res_Status (loop_results (run [o2; o1])) = [Release; Hold]
  /\ map res_SO_Number (loop_results (run [o2; o1])) = ["O2"; "O1"]
  /\ ledger stock (loop_used_components (run [o1; o2])) "A" = 1.
Proof. vm_compute. by repeat split. Qed.

(** * Further properties of the engine *)

(** ** The order loop *)

Section Run.
Variable stock labor_standards : gmap string Z.
Variable planned_demand : list bom_row.
Variable df_pos : list po_row.
Variable now : Z.
Variable status_callback : bool.
Variable scenario_num total_scenarios : Z.
Variable strategy_name : string.

Abbreviation step := (SQL.process_order stock labor_standards planned_demand df_pos now).
Abbreviation check := (SQL.check_component stock df_pos now).
Abbreviation run :=
  (SQL.process_orders stock labor_standards planned_demand df_pos now
     status_callback scenario_num total_scenarios strategy_name).

(** Every order gets its result from [process_order], in sequence. *)
Lemma run_Forall2 (P : order_row -> result -> Prop) processed total :
  (forall used r, P r (step used r).1) ->
  forall used orders, Forall2 P orders (loop_results (run processed total used orders)).
Proof.
  intros HP used orders. revert processed used.
  induction orders as [|r orders IH]; intros processed used; simpl; constructor.
  - apply HP.
  - apply IH.
Qed.

Lemma process_order_skipped_result used r :
  is_skipped r = true ->
  res_Hours (step used r).1 = 0
  /\ res_shortage_details (step used r).1 = []
  /\ res_PB (step used r).1 = false
  /\ res_Demand (step used r).1 = Z.max 0 (Demand (row r)).
Proof.
  intros Hs. unfold SQL.process_order. rewrite skip_test, Hs. simpl.
  repeat split. destruct (Z.ltb_spec 0 (Demand (row r))); lia.
Qed.

Lemma process_order_status used r :
  res_Status (step used r).1 = Skipped <-> is_skipped r = true.
Proof.
  destruct (is_skipped r) eqn:Hs.
  - destruct (process_order_skipped stock labor_standards planned_demand df_pos now
                used r Hs) as [-> _]. done.
  - split; [|done]. intros H.
    destruct (SQL.bom_of planned_demand (SO_Number (row r))) as [|b bom] eqn:Hb.
    + pose proof (process_order_raw stock labor_standards planned_demand df_pos now
                    used r Hs Hb) as Hr. simpl in Hr.
      destruct (_ <=? _); destruct Hr as (Hst & _); rewrite Hst in H; done.
    + destruct (process_order_bom stock labor_standards planned_demand df_pos now
                  used r b bom Hs Hb) as (Hst & _).
      rewrite Hst in H. by destruct (all_components_available _).
Qed.

(** X1: in every run, whatever the Ledger and the position in the sequence, an
    order gets the status Skipped exactly when its part number is missing or
    its demand is not positive; a Skipped result has zero hours, no shortage
    entry and no piggyback flag. *)
Theorem skipped_orders_are_skipped_in_every_run :
  forall processed total used orders,
    Forall2
      (fun r res =>
         (res_Status res = Skipped <-> is_skipped r = true)
         /\ (is_skipped r = true ->
             res_Hours res = 0 /\ res_shortage_details res = []
             /\ res_PB res = false))
      orders (loop_results (run processed total used orders)).
Proof.
  intros processed total used orders. apply run_Forall2.
  intros used' r. split.
  - apply process_order_status.
  - intros Hs.
    destruct (process_order_skipped_result used' r Hs) as (H1 & H2 & H3 & _). done.
Qed.

(** The flag is up exactly while no shortage entry has been written. *)
Lemma check_component_flag_details used st comp :
  (all_components_available st = true <-> shortage_details st = []) ->
  (all_components_available (check used st comp) = true
   <-> shortage_details (check used st comp) = []).
Proof.
  intros Hinv. unfold SQL.check_component.
  destruct (required_qty_of _) as [e|q]; simpl.
  - split; [done|]. intros H. by apply app_eq_nil in H as [_ H].
  - destruct (q <=? _); simpl; [done|].
    split; [done|]. intros H. by apply app_eq_nil in H as [_ H].
Qed.

Lemma check_fold_flag_details used bom st :
  (all_components_available st = true <-> shortage_details st = []) ->
  (all_components_available (fold_left (check used) bom st) = true
   <-> shortage_details (fold_left (check used) bom st) = []).
Proof.
  revert st. induction bom as [|comp bom IH]; intros st Hinv; simpl; [done|].
  by apply IH, check_component_flag_details.
Qed.

Lemma process_order_hold_iff used r :
  res_Status (step used r).1 = Hold <-> res_shortage_details (step used r).1 <> [].
Proof.
  destruct (is_skipped r) eqn:Hs.
  - destruct (process_order_skipped stock labor_standards planned_demand df_pos now
                used r Hs) as [-> _].
    destruct (process_order_skipped_result used r Hs) as (_ & -> & _).
    split; [done | intros H; exfalso; by apply H].
  - destruct (SQL.bom_of planned_demand (SO_Number (row r))) as [|b bom] eqn:Hb.
    + pose proof (process_order_raw stock labor_standards planned_demand df_pos now
                    used r Hs Hb) as Hr. simpl in Hr.
      destruct (_ <=? _); destruct Hr as (-> & _ & ->).
      * split; [done | intros H; exfalso; by apply H].
      * split; [intros _; discriminate | done].
    + destruct (process_order_bom stock labor_standards planned_demand df_pos now
                  used r b bom Hs Hb) as (-> & _ & ->).
      assert (all_components_available (fold_left (check used) (b :: bom) empty_check)
              = true
              <-> shortage_details (fold_left (check used) (b :: bom) empty_check) = [])
        as Hinv by (by apply check_fold_flag_details).
      destruct (all_components_available _).
      * split; [done|]. intros H. exfalso. apply H. by apply Hinv.
      * split; [|done]. intros _ H. apply Hinv in H. done.
Qed.

(** X2: in every run a result has the status Hold exactly when it carries at
    least one shortage entry: no order is held without a reason, and no
    Released or Skipped order reports a shortage. *)
Theorem held_orders_carry_a_shortage :
  forall processed total used orders,
    Forall
      (fun res => res_Status res = Hold <-> res_shortage_details res <> [])
      (loop_results (run processed total used orders)).
Proof.
  intros processed total used orders. revert processed used.
  induction orders as [|r orders IH]; intros processed used; simpl; constructor.
  - apply process_order_hold_iff.
  - apply IH.
Qed.

(** X3: the loop composes.  Processing [orders1 ++ orders2] is processing
    [orders1] and then [orders2], from the [used_components] the first part
    left and the counter it reached; messages and results are concatenated. *)
Theorem run_app :
  forall processed total used orders1 orders2,
    let first := run processed total used orders1 in
    let second := run (processed + SQL.len orders1) total
                    (loop_used_components first) orders2 in
    run processed total used (orders1 ++ orders2)
    = {| loop_messages := loop_messages first ++ loop_messages second;
         loop_results := loop_results first ++ loop_results second;
         loop_used_components := loop_used_components second |}.
Proof.
  intros processed total used orders1 orders2. simpl. revert processed used.
  induction orders1 as [|r orders1 IH]; intros processed used.
  - simpl. unfold SQL.len. simpl. rewrite Z.add_0_r.
    by destruct (run processed total used orders2).
  - cbn [app SQL.process_orders]. cbv zeta. rewrite IH. cbn [loop_messages loop_results loop_used_components].
    replace (processed + SQL.len (r :: orders1)) with (processed + 1 + SQL.len orders1)
      by (unfold SQL.len; simpl List.length; lia).
    by rewrite <- app_assoc.
Qed.

Lemma line_qty_nonneg p bom :
  nonnegative_quantities bom -> 0 <= sumZ (map (line_qty p) bom).
Proof.
  induction 1 as [|b bom Hb _ IH]; simpl; [lia|].
  unfold line_qty at 1. destruct (String.eqb _ p); [|lia].
  destruct (required_qty_of _); lia.
Qed.

Lemma bom_of_nonnegative so :
  nonnegative_quantities planned_demand -> nonnegative_quantities (SQL.bom_of planned_demand so).
Proof.
  unfold nonnegative_quantities, SQL.bom_of. rewrite !List.Forall_forall.
  intros H b Hb. apply filter_In in Hb as [Hb _]. by apply H.
Qed.

Lemma process_order_never_refills used r p :
  nonnegative_quantities planned_demand ->
  ledger stock (step used r).2 p <= ledger stock used p.
Proof.
  intros Hnn.
  pose proof (process_order_conserves stock labor_standards planned_demand df_pos now
                used r p) as Hc.
  destruct (bool_decide _) eqn:Hrel; [|lia].
  apply bool_decide_eq_true in Hrel.
  assert (is_skipped r = false) as Hs.
  { destruct (is_skipped r) eqn:Hs; [|done].
    pose proof (proj2 (process_order_status used r) Hs) as Hsk.
    rewrite Hsk in Hrel. done. }
  unfold order_requirement in Hc.
  pose proof (line_qty_nonneg p _ (bom_of_nonnegative (SO_Number (row r)) Hnn)) as Hq.
  destruct (SQL.bom_of planned_demand (SO_Number (row r))) as [|b bom]; [|lia].
  unfold is_skipped in Hs. apply orb_false_iff in Hs as [_ Hs]. apply Z.leb_gt in Hs.
  destruct (String.eqb _ p); lia.
Qed.

(** X4: when no BOM line asks for a negative quantity, a run never raises the
    available quantity of any part. *)
Theorem run_never_refills_the_ledger :
  forall processed total used orders p,
    nonnegative_quantities planned_demand ->
    ledger stock (loop_used_components (run processed total used orders)) p
    <= ledger stock used p.
Proof.
  intros processed total used orders p Hnn. revert processed used.
  induction orders as [|r orders IH]; intros processed used; simpl; [lia|].
  etrans; [apply IH|]. by apply process_order_never_refills.
Qed.

End Run.

(** ** What purchase orders and other orders' BOM lines cannot change *)

Lemma check_component_without_pos stock df_pos now df_pos' now' used st st' comp :
  all_components_available st = all_components_available st' ->
  component_requirements st = component_requirements st' ->
  components_needed st = components_needed st' ->
  let a := SQL.check_component stock df_pos now used st comp in
  let b := SQL.check_component stock df_pos' now' used st' comp in
  all_components_available a = all_components_available b
  /\ component_requirements a = component_requirements b
  /\ components_needed a = components_needed b.
Proof.
  intros Ha Hr Hn. unfold SQL.check_component.
  destruct (required_qty_of _) as [e|q]; simpl; [done|].
  destruct (q <=? _); simpl; rewrite ?Ha, ?Hr, ?Hn; done.
Qed.

Lemma check_fold_without_pos stock df_pos now df_pos' now' used bom st st' :
  all_components_available st = all_components_available st' ->
  component_requirements st = component_requirements st' ->
  components_needed st = components_needed st' ->
  let a := fold_left (SQL.check_component stock df_pos now used) bom st in
  let b := fold_left (SQL.check_component stock df_pos' now' used) bom st' in
  all_components_available a = all_components_available b
  /\ component_requirements a = component_requirements b
  /\ components_needed a = components_needed b.
Proof.
  revert st st'. induction bom as [|comp bom IH]; intros st st' Ha Hr Hn; simpl; [done|].
  destruct (check_component_without_pos stock df_pos now df_pos' now' used st st' comp
              Ha Hr Hn) as (Ha' & Hr' & Hn').
  by apply IH.
Qed.

Lemma process_order_without_pos stock labor_standards planned_demand
    df_pos now df_pos' now' used r :
  let a := SQL.process_order stock labor_standards planned_demand df_pos now used r in
  let b := SQL.process_order stock labor_standards planned_demand df_pos' now' used r in
  res_Status a.1 = res_Status b.1
  /\ res_components_needed a.1 = res_components_needed b.1
  /\ a.2 = b.2.
Proof.
  unfold SQL.process_order.
  destruct (_ || _); [done|].
  destruct (SQL.bom_of planned_demand (SO_Number (row r))) as [|b0 bom].
  - by destruct (_ <=? _).
  - destruct (check_fold_without_pos stock df_pos now df_pos' now' used (b0 :: bom)
                empty_check empty_check eq_refl eq_refl eq_refl) as (Ha & Hr & Hn).
    cbv zeta in Ha, Hr, Hn. cbn [fst snd res_Status res_components_needed].
    rewrite Ha, Hr, Hn. done.
Qed.

(** X5: the purchase-order table and the clock feed the text of the shortage
    entries and nothing else: two runs that differ only in [df_pos] and [now]
    give the same statuses, in sequence, and the same final
    [used_components]. *)
Theorem purchase_orders_never_change_decisions :
  forall stock labor_standards planned_demand df_pos now df_pos' now'
         status_callback scenario_num total_scenarios strategy_name
         processed total used orders,
    let a := SQL.process_orders stock labor_standards planned_demand df_pos now
               status_callback scenario_num total_scenarios strategy_name
               processed total used orders in
    let b := SQL.process_orders stock labor_standards planned_demand df_pos' now'
               status_callback scenario_num total_scenarios strategy_name
               processed total used orders in
    map res_Status (loop_results a) = map res_Status (loop_results b)
    /\ loop_used_components a = loop_used_components b.
Proof.
  intros stock labor pd pos now pos' now' cb n N sn processed total used orders.
  simpl. revert processed used.
  induction orders as [|r orders IH]; intros processed used; simpl; [done|].
  destruct (process_order_without_pos stock labor pd pos now pos' now' used r)
    as (Hs & _ & Hu).
  cbv zeta in Hs, Hu. rewrite Hs, Hu.
  destruct (IH (processed + 1)
              (SQL.process_order stock labor pd pos' now' used r).2) as [-> ->].
  done.
Qed.

(** X6: an order reads the planned-demand table through its own BOM lines.  With
    the same lines for the order, two tables give the same status, shortage
    entries, components, hours and [used_components].  The piggyback flag,
    which searches the whole component column, is not part of the statement. *)
Theorem other_bom_lines_change_the_flag_only :
  forall stock labor_standards planned_demand planned_demand' df_pos now used r,
    SQL.bom_of planned_demand (SO_Number (row r))
    = SQL.bom_of planned_demand' (SO_Number (row r)) ->
    let a := SQL.process_order stock labor_standards planned_demand df_pos now used r in
    let b := SQL.process_order stock labor_standards planned_demand' df_pos now used r in
    res_Status a.1 = res_Status b.1
    /\ res_shortage_details a.1 = res_shortage_details b.1
    /\ res_components_needed a.1 = res_components_needed b.1
    /\ res_Hours a.1 = res_Hours b.1
    /\ a.2 = b.2.
Proof.
  intros stock labor pd pd' pos now used r Hbom. unfold SQL.process_order.
  rewrite <- Hbom.
  destruct (_ || _); [done|].
  destruct (SQL.bom_of pd (SO_Number (row r))) as [|b0 bom]; [|done].
  by destruct (_ <=? _).
Qed.

Lemma other_bom_lines_change_the_flag_only_witness :
  let stock : gmap string Z := {[ "A" := 5 ]} in
  let r := {| row := {| SO_Number := "O1"; Part := "A"; Planner := "3001";
                        Start_Date := Some 1; Demand := 4 |}; Hours_Calc := 0 |} in
  let other := [ {| bom_SO_Number := "O9"; bom_Component_Part_Number := "NSA99";
                    bom_Component_Qty_Required := QtyNum 1 |} ] in
  res_PB (SQL.process_order stock ∅ [] [] 0 ∅ r).1 = false
  /\ res_PB (SQL.process_order stock ∅ other [] 0 ∅ r).1 = true
  /\ res_Status (SQL.process_order stock ∅ [] [] 0 ∅ r).1
     = res_Status (SQL.process_order stock ∅ other [] 0 ∅ r).1.
Proof.
  intros stock r other.
  split; [reflexivity|]. split; [reflexivity|].
  exact (proj1 (other_bom_lines_change_the_flag_only stock ∅ [] other [] 0 ∅ r eq_refl)).
Defined.

Lemma run_never_refills_the_ledger_witness :
  let stock : gmap string Z := {[ "A" := 5 ]} in
  let planned_demand :=
    [ {| bom_SO_Number := "O1"; bom_Component_Part_Number := "A";
         bom_Component_Qty_Required := QtyNum 3 |} ] in
  let r := {| row := {| SO_Number := "O1"; Part := "KIT"; Planner := "3001";
                        Start_Date := Some 1; Demand := 1 |}; Hours_Calc := 0 |} in
  ledger stock
    (loop_used_components
       (SQL.process_orders stock ∅ planned_demand [] 0 false 1 1 "Default" 0 1 ∅ [r])) "A"
  <= ledger stock ∅ "A".
Proof.
  intros stock planned_demand r.
  apply (run_never_refills_the_ledger stock ∅ planned_demand [] 0 false 1 1 "Default"
           0 1 ∅ [r] "A").
  repeat constructor. simpl. lia.
Defined.

(** ** The purchase order a shortage refers to *)

Lemma filter_cons_inv {A} (f : A -> bool) (l : list A) l1 x l2 :
  List.filter f l = l1 ++ x :: l2 ->
  exists before after,
    l = before ++ x :: after /\ List.filter f before = l1 /\ f x = true.
Proof.
  revert l1. induction l as [|y l IH]; intros l1; simpl.
  - by destruct l1.
  - destruct (f y) eqn:Hy.
    + destruct l1 as [|z l1]; simpl; intros [= <- H].
      * exists [], l. done.
      * destruct (IH l1 H) as (before & after & -> & Hb & Hx).
        exists (y :: before), after. simpl. rewrite Hy, Hb. done.
    + intros H. destruct (IH l1 H) as (before & after & -> & Hb & Hx).
      exists (y :: before), after. simpl. rewrite Hy. done.
Qed.

Lemma future_record_test now part po :
  (String.eqb (Part_Number po) part
   && match Promised_Due_Date po with
      | Some d => now <=? d
      | None => false
      end) = true
  <-> is_future_record now part po.
Proof.
  unfold is_future_record. rewrite andb_true_iff, String.eqb_eq.
  destruct (Promised_Due_Date po) as [d|].
  - rewrite Z.leb_le. split.
    + intros [? ?]. split; [done|]. by exists d.
    + intros [? (d' & [= <-] & ?)]. done.
  - split; [intros [_ ?]; done | intros [_ (d & ? & _)]; done].
Qed.

Lemma po_match_in_table df_pos now part shortage po :
  SQL.po_match df_pos now part shortage = Some po ->
  is_future_record now part po
  /\ shortage <= Qty_Due po
  /\ exists before after,
       df_pos = before ++ po :: after
       /\ forall po', In po' before -> is_future_record now part po' ->
                      Qty_Due po' < shortage.
Proof.
  intros Hm.
  destruct (po_match_first_fit df_pos now part shortage po Hm)
    as (l1 & l2 & Hf & Hq & Hsmall).
  unfold SQL.future_pos in Hf.
  apply filter_cons_inv in Hf as (before & after & -> & Hb & Hpo).
  split; [by apply future_record_test|]. split; [done|].
  exists before, after. split; [done|]. intros po' Hin Hfut.
  rewrite List.Forall_forall in Hsmall. apply Hsmall.
  rewrite <- Hb. apply filter_In. split; [done|]. by apply future_record_test.
Qed.

(** X7: the purchase order a shortage entry refers to is a record of the part,
    promised at or after the clock, whose quantity covers the shortage, and
    every such future record before it in the table is too small.  When no
    purchase order is referred to, every future record of the part is too
    small. *)
Theorem shortage_refers_to_first_covering_po :
  forall df_pos now part shortage,
    match SQL.po_match df_pos now part shortage with
    | Some po =>
        is_future_record now part po
        /\ shortage <= Qty_Due po
        /\ exists before after,
             df_pos = before ++ po :: after
             /\ forall po', In po' before -> is_future_record now part po' ->
                            Qty_Due po' < shortage
    | None =>
        forall po', In po' df_pos -> is_future_record now part po' ->
                    Qty_Due po' < shortage
    end.
Proof.
  intros df_pos now part shortage.
  destruct (SQL.po_match df_pos now part shortage) as [po|] eqn:Hm.
  - by apply po_match_in_table.
  - pose proof (po_match_none df_pos now part shortage Hm) as Hsmall.
    intros po' Hin Hfut. rewrite List.Forall_forall in Hsmall. apply Hsmall.
    unfold SQL.future_pos. apply filter_In. split; [done|]. by apply future_record_test.
Qed.

(** X8: with the purchase-order table in ascending order of promised date, as
    the query of [load_pos_data] returns it, the purchase order referred to
    is promised no later than any other future record of the part that
    covers the shortage. *)
Theorem shortage_refers_to_earliest_covering_po :
  forall df_pos now part shortage po po' d',
    dates_ascending df_pos ->
    SQL.po_match df_pos now part shortage = Some po ->
    In po' df_pos ->
    Part_Number po' = part ->
    Promised_Due_Date po' = Some d' ->
    now <= d' ->
    shortage <= Qty_Due po' ->
    exists d, Promised_Due_Date po = Some d /\ now <= d /\ d <= d'.
Proof.
  intros df_pos now part shortage po po' d' Hsorted Hm Hin Hpart Hdate Hnow Hq.
  destruct (po_match_in_table df_pos now part shortage po Hm)
    as ((Hp & d & Hd & Hnd) & Hqpo & before & after & -> & Hsmall).
  exists d. split; [done|]. split; [done|].
  apply in_app_or in Hin as [Hin|[<-|Hin]].
  - assert (Qty_Due po' < shortage); [|lia].
    apply Hsmall; [done|]. split; [done|]. by exists d'.
  - rewrite Hd in Hdate. injection Hdate as <-. lia.
  - unfold dates_ascending in Hsorted.
    assert (StronglySorted
              (fun a b => forall x y, Promised_Due_Date a = Some x ->
                                      Promised_Due_Date b = Some y -> x <= y)
              (po :: after)) as Hs.
    { clear -Hsorted. induction before as [|z before IH]; [done|].
      simpl in Hsorted. apply StronglySorted_inv in Hsorted as [Hsorted _]. by apply IH. }
    apply StronglySorted_inv in Hs as [_ Hall].
    rewrite List.Forall_forall in Hall. by apply (Hall po' Hin).
Qed.

Lemma shortage_refers_to_earliest_covering_po_witness :
  let po10 := {| PO_Number := "P10"; Part_Number := "A"; Qty_Due := 3;
                 Promised_Due_Date := Some 10 |} in
  let po20 := {| PO_Number := "P20"; Part_Number := "A"; Qty_Due := 5;
                 Promised_Due_Date := Some 20 |} in
  let po30 := {| PO_Number := "P30"; Part_Number := "A"; Qty_Due := 9;
                 Promised_Due_Date := Some 30 |} in
  exists d, Promised_Due_Date po20 = Some d /\ 0 <= d /\ d <= 30.
Proof.
  intros po10 po20 po30.
  apply (shortage_refers_to_earliest_covering_po [po10; po20; po30] 0 "A" 5 po20 po30 30).
  - unfold dates_ascending. repeat constructor; simpl; intros x y [= <-] [= <-]; lia.
  - reflexivity.
  - simpl. tauto.
  - reflexivity.
  - reflexivity.
  - lia.
  - simpl. lia.
Defined.

(** ** What a BOM order reports *)

Section Report.
Variable stock labor_standards : gmap string Z.
Variable planned_demand : list bom_row.
Variable df_pos : list po_row.
Variable now : Z.

Abbreviation step := (SQL.process_order stock labor_standards planned_demand df_pos now).
Abbreviation check := (SQL.check_component stock df_pos now).

Lemma check_component_details_length used st comp :
  List.length (shortage_details (check used st comp))
  = (List.length (shortage_details st)
     + if line_passesb stock used comp then 0 else 1)%nat.
Proof.
  unfold SQL.check_component, line_passesb, ledger.
  destruct (required_qty_of _) as [e|q]; simpl.
  - rewrite length_app. done.
  - destruct (q <=? _); simpl; [lia|]. rewrite length_app. done.
Qed.

Lemma check_fold_details_length used bom st :
  List.length (shortage_details (fold_left (check used) bom st))
  = (List.length (shortage_details st)
     + List.length (List.filter (fun b => negb (line_passesb stock used b)) bom))%nat.
Proof.
  revert st. induction bom as [|comp bom IH]; intros st; simpl; [lia|].
  rewrite IH, check_component_details_length.
  destruct (line_passesb stock used comp); simpl; lia.
Qed.

(** X9: a non-skipped order with a BOM carries exactly one shortage entry per
    BOM line that fails the check against the Ledger the order started from:
    the check does not stop at the first failure. *)
Theorem every_failing_line_is_reported :
  forall used r,
    is_skipped r = false ->
    SQL.bom_of planned_demand (SO_Number (row r)) <> [] ->
    List.length (res_shortage_details (step used r).1)
    = List.length
        (List.filter (fun b => negb (line_passesb stock used b))
           (SQL.bom_of planned_demand (SO_Number (row r)))).
Proof.
  intros used r Hs Hb.
  destruct (SQL.bom_of planned_demand (SO_Number (row r))) as [|b bom] eqn:Hbom; [done|].
  destruct (process_order_bom stock labor_standards planned_demand df_pos now
              used r b bom Hs Hbom) as (_ & _ & ->).
  by rewrite check_fold_details_length.
Qed.

Lemma check_component_needed used st comp p :
  components_needed (check used st comp) !! p
  = (if String.eqb (bom_Component_Part_Number comp) p then
       match required_qty_of (bom_Component_Qty_Required comp) with
       | inr q => Some q
       | inl _ => components_needed st !! p
       end
     else components_needed st !! p).
Proof.
  unfold SQL.check_component.
  destruct (required_qty_of _) as [e|q]; simpl.
  - by destruct (String.eqb _ p).
  - destruct (String.eqb_spec (bom_Component_Part_Number comp) p) as [->|Hne];
      destruct (q <=? _); simpl;
      rewrite ?lookup_insert_eq, ?lookup_insert_ne by done; done.
Qed.

Lemma check_fold_needed used bom st p :
  components_needed (fold_left (check used) bom st) !! p
  = fold_left
      (fun acc b =>
         if String.eqb (bom_Component_Part_Number b) p then
           match required_qty_of (bom_Component_Qty_Required b) with
           | inr q => Some q
           | inl _ => acc
           end
         else acc)
      bom (components_needed st !! p).
Proof.
  revert st. induction bom as [|comp bom IH]; intros st; simpl; [done|].
  by rewrite IH, check_component_needed.
Qed.

(** X10: for a non-skipped order with a BOM, [components_needed] maps a part to
    the quantity of the last line of the BOM that names it and parses:
    earlier lines of the same part are overwritten, not added. *)
Theorem components_needed_keeps_the_last_line :
  forall used r p,
    is_skipped r = false ->
    SQL.bom_of planned_demand (SO_Number (row r)) <> [] ->
    res_components_needed (step used r).1 !! p
    = last_line_qty p (SQL.bom_of planned_demand (SO_Number (row r))).
Proof.
  intros used r p Hs Hb.
  destruct (SQL.bom_of planned_demand (SO_Number (row r))) as [|b bom] eqn:Hbom; [done|].
  unfold SQL.process_order. rewrite skip_test, Hs, Hbom.
  cbn [fst res_components_needed]. rewrite check_fold_needed. done.
Qed.

End Report.

Lemma components_needed_keeps_the_last_line_witness :
  let stock : gmap string Z := {[ "A" := 9 ]} in
  let planned_demand :=
    [ {| bom_SO_Number := "O1"; bom_Component_Part_Number := "A";
         bom_Component_Qty_Required := QtyNum 3 |};
      {| bom_SO_Number := "O1"; bom_Component_Part_Number := "A";
         bom_Component_Qty_Required := QtyNum 2 |} ] in
  let r := {| row := {| SO_Number := "O1"; Part := "KIT"; Planner := "3001";
                        Start_Date := Some 1; Demand := 1 |}; Hours_Calc := 0 |} in
  res_components_needed (SQL.process_order stock ∅ planned_demand [] 0 ∅ r).1 !! "A"
  = Some 2
  /\ ledger stock (SQL.process_order stock ∅ planned_demand [] 0 ∅ r).2 "A" = 4.
Proof.
  intros stock planned_demand r. split; [|reflexivity].
  rewrite (components_needed_keeps_the_last_line stock ∅ planned_demand [] 0 ∅ r "A"
             eq_refl); [reflexivity | discriminate].
Defined.

Lemma every_failing_line_is_reported_witness :
  let stock : gmap string Z := {[ "X" := 2; "Y" := 10 ]} in
  let planned_demand :=
    [ {| bom_SO_Number := "O1"; bom_Component_Part_Number := "X";
         bom_Component_Qty_Required := QtyNum 3 |};
      {| bom_SO_Number := "O1"; bom_Component_Part_Number := "Y";
         bom_Component_Qty_Required := QtyNum 1 |};
      {| bom_SO_Number := "O1"; bom_Component_Part_Number := "Z";
         bom_Component_Qty_Required := QtyBad "invalid literal" |} ] in
  let r := {| row := {| SO_Number := "O1"; Part := "KIT"; Planner := "3001";
                        Start_Date := Some 1; Demand := 1 |}; Hours_Calc := 0 |} in
  List.length (res_shortage_details (SQL.process_order stock ∅ planned_demand [] 0 ∅ r).1)
  = 2%nat.
Proof.
  intros stock planned_demand r.
  rewrite (every_failing_line_is_reported stock ∅ planned_demand [] 0 ∅ r eq_refl);
    [reflexivity | discriminate].
Defined.

(** ** The processing sequence *)

Section SortFacts.
Context {A : Type} (leb : A -> A -> bool).

Lemma insert_sorted_perm x l : insert_sorted leb x l ≡ₚ x :: l.
Proof.
  induction l as [|y l IH]; simpl; [done|].
  destruct (leb x y); [done|]. rewrite IH. apply perm_swap.
Qed.

Lemma stable_sort_perm l : stable_sort leb l ≡ₚ l.
Proof.
  induction l as [|x l IH]; simpl; [done|].
  by rewrite insert_sorted_perm, IH.
Qed.

Lemma stable_sort_of_sorted l :
  StronglySorted (fun x y => leb x y = true) l -> stable_sort leb l = l.
Proof.
  induction 1 as [|x l Hl IH Hx]; simpl; [done|]. rewrite IH.
  destruct l as [|y l]; simpl; [done|].
  apply Forall_inv in Hx. by rewrite Hx.
Qed.

(** Insertion never moves a row past a row of its own class. *)
Lemma insert_sorted_filter (P : A -> bool) x l :
  (forall y, P x = true -> P y = true -> leb x y = true) ->
  List.filter P (insert_sorted leb x l) = List.filter P (x :: l).
Proof.
  intros Hclass. induction l as [|y l IH]; simpl; [done|].
  destruct (leb x y) eqn:Hxy; [done|]. simpl. rewrite IH. simpl.
  destruct (P x) eqn:Hx, (P y) eqn:Hy; try done.
  rewrite (Hclass y eq_refl Hy) in Hxy. done.
Qed.

Lemma stable_sort_filter (P : A -> bool) l :
  (forall x y, P x = true -> P y = true -> leb x y = true) ->
  List.filter P (stable_sort leb l) = List.filter P l.
Proof.
  intros Hclass. induction l as [|x l IH]; simpl; [done|].
  rewrite insert_sorted_filter by (intros y; apply Hclass). simpl. by rewrite IH.
Qed.

End SortFacts.

Lemma strongly_sorted_weaken {A} (R S : A -> A -> Prop) l :
  (forall x y, R x y -> S x y) -> StronglySorted R l -> StronglySorted S l.
Proof.
  intros HRS. induction 1 as [|x l Hl IH Hx]; constructor; [done|].
  rewrite List.Forall_forall in *. intros y Hy. by apply HRS, Hx.
Qed.

Lemma sort_values_perm cols ascs df : sort_values cols ascs df ≡ₚ df.
Proof. apply stable_sort_perm. Qed.

Lemma sort_values_twice cols ascs df :
  sort_values cols ascs (sort_values cols ascs df) = sort_values cols ascs df.
Proof. apply stable_sort_of_sorted, sort_values_sorted. Qed.

Lemma apply_sorting_fold s cols df :
  fold_left
    (fun df col =>
       match col with
       | Col_Start_Date => sort_values (columns s) (ascending s) df
       | _ => sort_values (columns s) (ascending s) df
       end) cols df
  = match cols with
    | [] => df
    | _ => sort_values (columns s) (ascending s) df
    end.
Proof.
  revert df. induction cols as [|c cols IH]; intros df; simpl; [done|].
  rewrite IH.
  assert (match c with
          | Col_Start_Date => sort_values (columns s) (ascending s) df
          | _ => sort_values (columns s) (ascending s) df
          end = sort_values (columns s) (ascending s) df) as -> by (by destruct c).
  destruct cols; [done|]. apply sort_values_twice.
Qed.

(** X11: the strategy loop calls [sort_values] once per sort column, each time
    with all the columns; the result is that of a single call, and the frame
    is left as it is when the strategy has no column. *)
Theorem apply_sorting_is_one_sort :
  forall sorting df,
    SQL.apply_sorting sorting df
    = match sorting with
      | Some s =>
          match columns s with
          | [] => df
          | _ => sort_values (columns s) (ascending s) df
          end
      | None => sort_values [Col_Start_Date; Col_SO_Number] [true; true] df
      end.
Proof.
  intros [s|] df; simpl; [|done]. apply apply_sorting_fold.
Qed.

Lemma apply_sorting_perm sorting df : SQL.apply_sorting sorting df ≡ₚ df.
Proof.
  destruct sorting as [s|]; simpl; [|apply sort_values_perm].
  rewrite apply_sorting_fold. destruct (columns s); [done | apply sort_values_perm].
Qed.

Lemma filtered_df_main_perm db sorting k i v ks :
  map row (SQL.filtered_df_main db sorting k i v ks)
  ≡ₚ List.filter (SQL.filter_mask k i v ks) (df_main db).
Proof.
  unfold SQL.filtered_df_main. cbv zeta.
  rewrite apply_sorting_perm, map_map. simpl. by rewrite map_id.
Qed.

(** X12: under a strategy with at least one column the processing sequence is in
    the order of the strategy's keys: no row comes before a row whose key is
    strictly smaller. *)
Theorem apply_sorting_sorted :
  forall s df,
    columns s <> [] ->
    StronglySorted
      (fun x y => sort_key_compare (columns s) (ascending s) x y <> Gt)
      (SQL.apply_sorting (Some s) df).
Proof.
  intros s df Hc. simpl. rewrite apply_sorting_fold.
  destruct (columns s) as [|c cols] eqn:Hcols; [done|]. rewrite <- Hcols.
  eapply strongly_sorted_weaken; [|apply sort_values_sorted].
  intros x y. unfold cmp_leb. by destruct (sort_key_compare _ _ x y).
Qed.

(** X13: the sort is stable: the rows that agree with a given row on every sort
    key are in the same relative order after the sort as before. *)
Theorem apply_sorting_stable :
  forall s df x,
    List.filter (same_keys (columns s) (ascending s) x) (SQL.apply_sorting (Some s) df)
    = List.filter (same_keys (columns s) (ascending s) x) df.
Proof.
  intros s df x. simpl. rewrite apply_sorting_fold.
  destruct (columns s) as [|c cols] eqn:Hcols; [done|]. rewrite <- Hcols.
  apply stable_sort_filter. intros y z Hy Hz.
  unfold same_keys in Hy, Hz. unfold cmp_leb.
  pose proof (order_like_sort_key (columns s) (ascending s)) as Hol.
  destruct (sort_key_compare _ _ x y) eqn:Hxy; try done.
  destruct (sort_key_compare _ _ x z) eqn:Hxz; try done.
  rewrite <- (ol_eq_l _ Hol x y z Hxy), Hxz. done.
Qed.

Lemma apply_sorting_sorted_witness :
  let s := {| name := "Demand (Large First)";
              columns := [Col_Demand; Col_Start_Date]; ascending := [false; true] |} in
  let o1 := {| row := {| SO_Number := "O1"; Part := "K"; Planner := "3001";
                         Start_Date := Some 20; Demand := 5 |}; Hours_Calc := 0 |} in
  let o2 := {| row := {| SO_Number := "O2"; Part := "K"; Planner := "3001";
                         Start_Date := None; Demand := 7 |}; Hours_Calc := 0 |} in
  let o3 := {| row := {| SO_Number := "O3"; Part := "K"; Planner := "3001";
                         Start_Date := Some 10; Demand := 5 |}; Hours_Calc := 0 |} in
  SQL.apply_sorting (Some s) [o1; o2; o3] = [o2; o3; o1]
  /\ StronglySorted
       (fun x y => sort_key_compare (columns s) (ascending s) x y <> Gt)
       (SQL.apply_sorting (Some s) [o1; o2; o3]).
Proof.
  intros s o1 o2 o3. split; [reflexivity|].
  apply (apply_sorting_sorted s [o1; o2; o3]). discriminate.
Defined.

(** ** Stock, committed quantities and metrics *)








(** ** What a returned scenario is made of *)

Lemma process_single_scenario_inv db sname cb n N sorting k i v ks sc :
  (SQL.process_single_scenario db sname cb n N sorting k i v ks).2 = inr sc ->
  let committed := match df_component_demand db with
                   | [] => ∅
                   | _ => groupby_sum (df_component_demand db)
                   end in
  let orders := SQL.filtered_df_main db sorting k i v ks in
  results_df sc
  = loop_results
      (SQL.process_orders (SQL.build_stock_dictionary (df_ipis db))
         (groupby_sum (df_hours db)) (SQL.planned_demand_of (df_struct db))
         (df_pos db) (now db) cb n N
         (match sorting with Some s => name s | None => "Default" end)
         0 (SQL.len orders) committed orders)
  /\ scenario_metrics sc = SQL.summary_metrics (results_df sc) committed
  /\ sorting_strategy sc = match sorting with
                           | Some s => name s
                           | None => "Default (Start Date)"
                           end
  /\ scenario_name sc = sname.
Proof.
  unfold SQL.process_single_scenario.
  destruct (List.filter _ SQL.required_columns); [|done].
  cbv zeta. intros [= <-]. done.
Qed.

Lemma run_strategies_inv db n N strategies k i v ks l :
  (SQL.run_strategies db n N strategies k i v ks).2 = inr l ->
  Forall2
    (fun s sc =>
       exists scenario_name m,
         (SQL.process_single_scenario db scenario_name true m N (Some s) k i v ks).2
         = inr sc)
    strategies l.
Proof.
  revert n l. induction strategies as [|s strategies IH]; intros n l.
  - simpl. intros [= <-]. constructor.
  - cbn [SQL.run_strategies]. cbv zeta.
    destruct (SQL.process_single_scenario db _ true (n + 1) N (Some s) k i v ks).2
      as [e|sc] eqn:Hsc; [done|].
    cbn [snd].
    destruct (SQL.run_strategies db (n + 1) N strategies k i v ks).2 as [e|rest] eqn:Hr;
      [done|].
    intros [= <-]. constructor; [by eauto | by eapply IH].
Qed.

Lemma load_and_process_database_inv db k i v ks opt :
  (SQL.load_and_process_database db k i v ks).2 = inr opt ->
  (SQL.run_strategies db 0 (SQL.len SQL.get_sorting_strategies)
     SQL.get_sorting_strategies k i v ks).2 = inr (all_strategy_results opt).
Proof.
  unfold SQL.load_and_process_database. cbv zeta.
  destruct (SQL.run_strategies db 0 _ SQL.get_sorting_strategies k i v ks).2
    as [e|l]; [done|].
  unfold SQL.find_best.
  destruct (py_max _ l); [|done].
  destruct (py_max _ l); [|done].
  destruct (py_max _ l); [|done].
  cbn [snd]. by intros [= <-].
Qed.

(** ** Counting by status *)

Lemma len_by_status (results : list result) :
  SQL.len results
  = SQL.len (SQL.with_status Release results)
    + SQL.len (SQL.with_status Hold results)
    + SQL.len (SQL.with_status Skipped results).
Proof.
  unfold SQL.len, SQL.with_status.
  induction results as [|res results IH]; simpl; [done|].
  destruct (res_Status res); simpl; lia.
Qed.

(** X15: [total_orders] is the number of Release, Hold and Skipped results
    together, and [held_count], computed by subtraction, is the number of
    Hold results plus [skipped_count]. *)
Theorem held_count_is_hold_plus_skipped :
  forall results committed_components,
    let m := SQL.summary_metrics results committed_components in
    total_orders m
    = releasable_count m + SQL.len (SQL.with_status Hold results) + skipped_count m
    /\ held_count m = SQL.len (SQL.with_status Hold results) + skipped_count m.
Proof.
  intros results committed. simpl.
  pose proof (len_by_status results). lia.
Qed.




Section RunFacts.
Variable stock labor_standards : gmap string Z.
Variable planned_demand : list bom_row.
Variable df_pos : list po_row.
Variable now : Z.
Variable status_callback : bool.
Variable scenario_num total_scenarios : Z.
Variable strategy_name : string.

Abbreviation step := (SQL.process_order stock labor_standards planned_demand df_pos now).
Abbreviation run :=
  (SQL.process_orders stock labor_standards planned_demand df_pos now
     status_callback scenario_num total_scenarios strategy_name).


Lemma process_order_copies used r :
  res_SO_Number (step used r).1 = SO_Number (row r)
  /\ res_Planner (step used r).1 = Planner (row r)
  /\ res_Start_Date (step used r).1 = Start_Date (row r)
  /\ res_Demand (step used r).1 = Z.max 0 (Demand (row r)).
Proof.
  assert ((if 0 <? Demand (row r) then Demand (row r) else 0) = Z.max 0 (Demand (row r)))
    as Hd by (destruct (Z.ltb_spec 0 (Demand (row r))); lia).
  unfold SQL.process_order. rewrite Hd.
  destruct (_ || _); [done|].
  destruct (SQL.bom_of _ _); [|done].
  by destruct (_ <=? _).
Qed.


End RunFacts.



(** ** Counting by category *)

Ltac planner_cases p :=
  unfold isin; simpl existsb;
  repeat match goal with
         | |- context [String.eqb p ?lit] =>
             destruct (String.eqb_spec p lit) as [->|?]; simpl
         | H : context [String.eqb p ?lit] |- _ =>
             destruct (String.eqb_spec p lit) as [->|?]; simpl in H
         end.








(** ** Results and demand rows *)

Lemma Forall2_map_eq {A B C} (f : A -> C) (g : B -> C) (l : list A) (l' : list B) :
  Forall2 (fun a b => g b = f a) l l' -> map g l' = map f l.
Proof. induction 1; simpl; congruence. Qed.

Lemma scenario_results_keys db scenario_name cb n N sorting k i v ks sc :
  (SQL.process_single_scenario db scenario_name cb n N sorting k i v ks).2 = inr sc ->
  map result_key (results_df sc)
  = map (fun r => demand_key (row r)) (SQL.filtered_df_main db sorting k i v ks).
Proof.
  intros Hsc.
  destruct (process_single_scenario_inv _ _ _ _ _ _ _ _ _ _ _ Hsc) as (-> & _).
  apply Forall2_map_eq. apply run_Forall2. intros used r.
  destruct (process_order_copies (SQL.build_stock_dictionary (df_ipis db))
              (groupby_sum (df_hours db)) (SQL.planned_demand_of (df_struct db))
              (df_pos db) (now db) used r) as (H1 & H2 & H3 & H4).
  unfold result_key, demand_key. by rewrite H1, H2, H3, H4.
Qed.

Lemma scenario_results_perm db scenario_name cb n N sorting k i v ks sc :
  (SQL.process_single_scenario db scenario_name cb n N sorting k i v ks).2 = inr sc ->
  map result_key (results_df sc)
  ≡ₚ map demand_key (List.filter (SQL.filter_mask k i v ks) (df_main db)).
Proof.
  intros Hsc. rewrite (scenario_results_keys _ _ _ _ _ _ _ _ _ _ _ Hsc).
  rewrite <- (filtered_df_main_perm db sorting k i v ks), map_map. done.
Qed.

(** X18: a returned scenario has exactly one result per demand row the category
    filter selects: the order numbers, planners, start dates and demands
    (a negative demand is reported as 0) of the results are those of the
    selected rows, up to the order the sort gives, and [total_orders] is the
    number of selected rows. *)
Theorem every_selected_order_gets_one_result :
  forall db scenario_name cb n N sorting k i v ks,
    match (SQL.process_single_scenario db scenario_name cb n N sorting k i v ks).2 with
    | inr sc =>
        map result_key (results_df sc)
        ≡ₚ map demand_key (List.filter (SQL.filter_mask k i v ks) (df_main db))
        /\ total_orders (scenario_metrics sc)
           = SQL.len (List.filter (SQL.filter_mask k i v ks) (df_main db))
    | inl _ => True
    end.
Proof.
  intros db scenario_name cb n N sorting k i v ks.
  destruct (SQL.process_single_scenario db scenario_name cb n N sorting k i v ks).2
    as [e|sc] eqn:Hsc; [done|].
  pose proof (scenario_results_perm _ _ _ _ _ _ _ _ _ _ _ Hsc) as Hp.
  split; [done|].
  destruct (process_single_scenario_inv _ _ _ _ _ _ _ _ _ _ _ Hsc) as (_ & -> & _).
  simpl. unfold SQL.len. f_equal.
  apply Permutation_length in Hp. by rewrite !length_map in Hp.
Qed.

Lemma scenario_results_planners db scenario_name cb n N sorting k i v ks sc
    (P : string -> Prop) :
  (SQL.process_single_scenario db scenario_name cb n N sorting k i v ks).2 = inr sc ->
  (forall r, SQL.filter_mask k i v ks r = true -> P (Planner r)) ->
  Forall (fun res => P (res_Planner res)) (results_df sc).
Proof.
  intros Hsc HP.
  pose proof (scenario_results_perm _ _ _ _ _ _ _ _ _ _ _ Hsc) as Hp.
  apply List.Forall_forall. intros res Hres.
  assert (In (result_key res) (map result_key (results_df sc))) as Hin
    by (by apply in_map).
  apply (Permutation_in _ Hp) in Hin.
  apply in_map_iff in Hin as (r & Hkey & Hr).
  apply filter_In in Hr as [_ Hmask].
  unfold result_key, demand_key in Hkey. injection Hkey as _ Hpl _ _.
  rewrite <- Hpl. by apply HP.
Qed.


Lemma with_planner_none planners (results : list result) :
  Forall (fun res => isin planners (res_Planner res) = false) results ->
  SQL.with_planner planners results = [].
Proof.
  unfold SQL.with_planner. induction 1 as [|res results Hres _ IH]; simpl; [done|].
  by rewrite Hres.
Qed.

Lemma with_planner_none_release planners (results : list result) :
  Forall (fun res => isin planners (res_Planner res) = false) results ->
  SQL.with_planner planners (SQL.with_status Release results) = [].
Proof.
  intros H. apply with_planner_none. unfold SQL.with_status.
  rewrite List.Forall_forall in *. intros res Hin.
  apply filter_In in Hin as [Hin _]. by apply H.
Qed.

Lemma group_none planners (results : list result) :
  Forall (fun res => isin planners (res_Planner res) = false) results ->
  SQL.group planners results (SQL.with_status Release results) = empty_group.
Proof.
  intros H. unfold SQL.group.
  rewrite (with_planner_none _ _ H), (with_planner_none_release _ _ H). done.
Qed.

Lemma filter_mask_excludes_groups k i v ks r :
  SQL.filter_mask k i v ks r = true ->
  (k = false -> isin ["3001"; "3801"] (Planner r) = false
                /\ isin ["5001"] (Planner r) = false)
  /\ (i = false -> isin ["3802"] (Planner r) = false
                   /\ isin ["3803"] (Planner r) = false
                   /\ isin ["3804"] (Planner r) = false
                   /\ isin ["3805"] (Planner r) = false)
  /\ (v = false -> isin ["3806"] (Planner r) = false)
  /\ (ks = false -> isin ["KIT SAMPLES"] (Planner r) = false).
Proof.
  unfold SQL.filter_mask.
  destruct k, i, v, ks; cbv zeta; generalize (Planner r); intros p;
    planner_cases p; intros Hm; repeat split; intros; done.
Qed.

(** X20: a category that is switched off has all-zero metrics in a returned
    scenario, and so have its sub-groups. *)
Theorem excluded_categories_are_empty :
  forall db scenario_name cb n N sorting k i v ks,
    match (SQL.process_single_scenario db scenario_name cb n N sorting k i v ks).2 with
    | inr sc =>
        let m := scenario_metrics sc in
        (k = false -> kits m = empty_group /\ bvi_kits m = empty_group
                      /\ malosa_kits m = empty_group)
        /\ (i = false -> instruments m = empty_group /\ manufacturing m = empty_group
                         /\ assembly m = empty_group /\ packaging m = empty_group
                         /\ malosa_instruments m = empty_group)
        /\ (v = false -> virtuoso m = empty_group)
        /\ (ks = false -> kit_samples m = empty_group)
    | inl _ => True
    end.
Proof.
  intros db scenario_name cb n N sorting k i v ks.
  destruct (SQL.process_single_scenario db scenario_name cb n N sorting k i v ks).2
    as [e|sc] eqn:Hsc; [done|].
  assert (forall planners,
            (forall r, SQL.filter_mask k i v ks r = true ->
                       isin planners (Planner r) = false) ->
            SQL.group planners (results_df sc)
              (SQL.with_status Release (results_df sc)) = empty_group) as Hnone.
  { intros planners H. apply group_none.
    by apply (scenario_results_planners _ _ _ _ _ _ _ _ _ _ _
                (fun p => isin planners p = false) Hsc). }
  destruct (process_single_scenario_inv _ _ _ _ _ _ _ _ _ _ _ Hsc) as (_ & -> & _).
  unfold SQL.summary_metrics. cbv zeta.
  cbn [kits bvi_kits malosa_kits instruments manufacturing assembly packaging
       malosa_instruments virtuoso kit_samples].
  split; [|split; [|split]].
  - intros Hk.
    rewrite (Hnone ["3001"; "3801"]), (Hnone ["5001"]); [done|..];
      intros r Hr; destruct (filter_mask_excludes_groups _ _ _ _ r Hr) as (H & _);
      by destruct (H Hk).
  - intros Hi.
    rewrite (Hnone ["3802"]), (Hnone ["3803"]), (Hnone ["3804"]), (Hnone ["3805"]);
      [done|..];
      intros r Hr; destruct (filter_mask_excludes_groups _ _ _ _ r Hr) as (_ & H & _);
      by destruct (H Hi) as (? & ? & ? & ?).
  - intros Hv. rewrite (Hnone ["3806"]); [done|].
    intros r Hr. destruct (filter_mask_excludes_groups _ _ _ _ r Hr) as (_ & _ & H & _).
    by apply H.
  - intros Hks. rewrite (Hnone ["KIT SAMPLES"]); [done|].
    intros r Hr. destruct (filter_mask_excludes_groups _ _ _ _ r Hr) as (_ & _ & _ & H).
    by apply H.
Qed.

(** ** The search *)

(** X21: when the search returns, it holds one scenario per strategy, in the
    order of [get_sorting_strategies], each labelled with the name of its
    strategy and each with results for the same selected demand rows. *)
Theorem every_strategy_processes_the_same_orders :
  forall db k i v ks,
    match (SQL.load_and_process_database db k i v ks).2 with
    | inr opt =>
        Forall2
          (fun s sc =>
             sorting_strategy sc = name s
             /\ map result_key (results_df sc)
                ≡ₚ map demand_key (List.filter (SQL.filter_mask k i v ks) (df_main db)))
          SQL.get_sorting_strategies (all_strategy_results opt)
    | inl _ => True
    end.
Proof.
  intros db k i v ks.
  destruct (SQL.load_and_process_database db k i v ks).2 as [e|opt] eqn:Hopt; [done|].
  apply load_and_process_database_inv, run_strategies_inv in Hopt.
  eapply Forall2_impl; [exact Hopt|].
  intros s sc (scenario_name & m & Hsc). split.
  - by destruct (process_single_scenario_inv _ _ _ _ _ _ _ _ _ _ _ Hsc) as (_ & _ & -> & _).
  - by eapply scenario_results_perm.
Qed.

(** ** The search of the worker thread *)




(** ** Order numbers *)

Example normalize_examples :
  normalize_so_number (Some " 9682591.0 ") = "9682591"
  /\ normalize_so_number (Some "9682591") = "9682591"
  /\ normalize_so_number (Some "SO-17.0") = "SO-17.0"
  /\ normalize_so_number (Some "1.05") = "1.05"
  /\ normalize_so_number (Some ".0") = ".0"
  /\ normalize_so_number None = "".
Proof. vm_compute. repeat split. Qed.

Lemma digit_not_space c : is_digit c = true -> is_space c = false.
Proof.
  unfold is_digit, is_space. intros H.
  apply andb_true_iff in H as [H1 H2].
  apply Nat.leb_le in H1. apply Nat.leb_le in H2.
  apply orb_false_iff. split; apply andb_false_iff.
  - right. apply Nat.leb_gt. lia.
  - right. apply Nat.leb_gt. lia.
Qed.

Lemma digit_not_dot c : is_digit c = true -> Ascii.eqb c "."%char = false.
Proof.
  intros H. destruct (Ascii.eqb_spec c "."%char) as [->|]; [|done].
  vm_compute in H. done.
Qed.

(** A string that starts and ends with a digit, or is empty, has nothing
    to strip. *)
Lemma rstrip_digits s : all_digits s = true -> rstrip s = s.
Proof.
  induction s as [|c s IH]; simpl; [done|]. intros H.
  apply andb_true_iff in H as [Hc Hs]. rewrite IH by done.
  destruct s; [|done]. by rewrite (digit_not_space c Hc).
Qed.

Lemma lstrip_digits s : all_digits s = true -> lstrip s = s.
Proof.
  destruct s as [|c s]; simpl; [done|]. intros H.
  apply andb_true_iff in H as [Hc _]. by rewrite (digit_not_space c Hc).
Qed.

Lemma py_strip_digits s : all_digits s = true -> py_strip s = s.
Proof. intros H. unfold py_strip. by rewrite lstrip_digits, rstrip_digits. Qed.

Lemma all_digits_app s t :
  all_digits (s ++ t) = all_digits s && all_digits t.
Proof.
  induction s as [|c s IH]; simpl; [done|]. rewrite IH. by rewrite andb_assoc.
Qed.

Lemma rstrip_app_digit s c :
  is_digit c = true -> rstrip (s ++ String c "") = (s ++ String c "")%string.
Proof.
  intros Hc. induction s as [|a s IH]; simpl.
  - by rewrite (digit_not_space c Hc).
  - rewrite IH. by destruct s.
Qed.

Lemma rstrip_app_dot0 s : rstrip (s ++ ".0") = (s ++ ".0")%string.
Proof.
  induction s as [|a s IH]; [reflexivity|].
  change ((String a s ++ ".0")%string) with (String a (s ++ ".0")).
  cbn [rstrip]. rewrite IH. by destruct s.
Qed.

Lemma endswith_digits s : all_digits s = true -> endswith ".0" s = false.
Proof.
  induction s as [|c s IH]; [done|]. intros H. simpl in H.
  apply andb_true_iff in H as [Hc Hs]. cbn [endswith]. rewrite IH by done.
  destruct (String.eqb_spec (String c s) ".0") as [Heq|]; [|done].
  injection Heq as -> _. vm_compute in Hc. done.
Qed.

Lemma endswith_app suffix s : endswith suffix (s ++ suffix) = true.
Proof.
  induction s as [|c s IH].
  - change (("" ++ suffix)%string) with suffix.
    destruct suffix; cbn [endswith]; rewrite ?String.eqb_refl; done.
  - change ((String c s ++ suffix)%string) with (String c (s ++ suffix)).
    cbn [endswith]. rewrite IH. by destruct (String.eqb _ _).
Qed.

Lemma remove_dot0_digits s : all_digits s = true -> remove_dot0 s = s.
Proof.
  induction s as [|c s IH]; [done|]. intros H. simpl in H.
  apply andb_true_iff in H as [Hc Hs]. specialize (IH Hs).
  cbn [remove_dot0]. destruct s as [|c' s]; [done|].
  rewrite (digit_not_dot c Hc). cbn [andb]. by rewrite IH.
Qed.

Lemma remove_dot0_digits_dot0 s :
  all_digits s = true -> remove_dot0 (s ++ ".0") = s.
Proof.
  induction s as [|c s IH]; [done|]. intros H. simpl in H.
  apply andb_true_iff in H as [Hc Hs]. specialize (IH Hs).
  change ((String c s ++ ".0")%string) with (String c (s ++ ".0")).
  cbn [remove_dot0]. destruct s as [|c' s].
  - simpl. by rewrite (digit_not_dot c Hc).
  - change ((String c' s ++ ".0")%string) with (String c' (s ++ ".0")) in *.
    rewrite (digit_not_dot c Hc). cbn [andb]. by rewrite IH.
Qed.

Lemma isdigit_all_digits s : isdigit s = true -> all_digits s = true.
Proof. by destruct s. Qed.

Lemma normalize_digits d : isdigit d = true -> normalize_so_number (Some d) = d.
Proof.
  intros Hd. pose proof (isdigit_all_digits d Hd) as Ha.
  unfold normalize_so_number. rewrite py_strip_digits by done.
  by rewrite endswith_digits.
Qed.

(** X23: an order number made of digits normalises to itself, and so does its
    float rendering: ["12345.0"] and ["12345"] give the same key. *)
Theorem normalize_so_number_undoes_float_formatting :
  forall d,
    isdigit d = true ->
    normalize_so_number (Some (d ++ ".0")%string) = d
    /\ normalize_so_number (Some d) = d.
Proof.
  intros d Hd. split; [|by apply normalize_digits].
  pose proof (isdigit_all_digits d Hd) as Ha.
  unfold normalize_so_number.
  assert (py_strip (d ++ ".0") = (d ++ ".0")%string) as ->.
  { unfold py_strip.
    assert (lstrip (d ++ ".0") = (d ++ ".0")%string) as ->.
    { destruct d as [|c d]; [done|]. simpl in *.
      apply andb_true_iff in Ha as [Hc _]. by rewrite (digit_not_space c Hc). }
    apply rstrip_app_dot0. }
  rewrite endswith_app, remove_dot0_digits_dot0 by done. by rewrite Hd.
Qed.

Lemma normalize_so_number_undoes_float_formatting_witness :
  normalize_so_number (Some "9682591.0") = "9682591"
  /\ normalize_so_number (Some "9682591") = "9682591".
Proof.
  exact (normalize_so_number_undoes_float_formatting "9682591" eq_refl).
Defined.

Lemma lstrip_no_leading_space s : no_leading_space (lstrip s).
Proof.
  induction s as [|c s IH]; simpl; [done|].
  destruct (is_space c) eqn:Hc; [done|]. simpl. done.
Qed.

Lemma lstrip_id s : no_leading_space s -> lstrip s = s.
Proof. destruct s as [|c s]; simpl; [done|]. by intros ->. Qed.

Lemma rstrip_no_leading_space s : no_leading_space s -> no_leading_space (rstrip s).
Proof.
  destruct s as [|c s]; simpl; [done|]. intros Hc.
  destruct (rstrip s); simpl; [|done]. by rewrite Hc.
Qed.

Lemma rstrip_idem s : rstrip (rstrip s) = rstrip s.
Proof.
  induction s as [|c s IH]; simpl; [done|].
  destruct (rstrip s) as [|a t] eqn:Ht.
  - destruct (is_space c) eqn:Hc; simpl; [done|]. by rewrite Hc.
  - cbn [rstrip] in *. by rewrite IH.
Qed.

Lemma py_strip_idem s : py_strip (py_strip s) = py_strip s.
Proof.
  unfold py_strip.
  rewrite (lstrip_id (rstrip (lstrip s))).
  - apply rstrip_idem.
  - apply rstrip_no_leading_space, lstrip_no_leading_space.
Qed.

(** X24: [normalize_so_number] is idempotent: normalising a normalised order
    number changes nothing (a missing value normalises to the empty string). *)
Theorem normalize_so_number_idempotent :
  forall so_val,
    normalize_so_number (Some (normalize_so_number so_val))
    = normalize_so_number so_val.
Proof.
  intros [s|]; [|reflexivity].
  assert (normalize_so_number (Some s)
          = if endswith ".0" (py_strip s) && isdigit (remove_dot0 (py_strip s))
            then remove_dot0 (py_strip s) else py_strip s) as -> by reflexivity.
  destruct (endswith ".0" (py_strip s) && isdigit (remove_dot0 (py_strip s))) eqn:Hc.
  - apply andb_true_iff in Hc as [_ Hd]. by apply normalize_digits.
  - unfold normalize_so_number. cbv zeta. rewrite py_strip_idem, Hc. done.
Qed.
